(** * Insurance document summarizer (gemini1.py): model and verified properties

    A shallow embedding of [src/gemini1.py]: the two functions
    [summarize_document] and [extract_text_from_pdf], and the module-level
    script from the upload branch (line 227) on.

    Python values are an inductive type, Python strings are lists of Unicode
    code points, exceptions are data, and the effects of the script (the
    Streamlit calls, the HTTP request, the session slot) are threaded through
    an explicit state-and-exception monad.  The libraries the script calls
    ([requests], [json], [PyPDF2]) are the environment: the network, the JSON
    decoder and the PDF reader are variables of the model.  A concrete JSON
    decoder and a concrete UTF-8 codec are given as well, so that every
    statement can be run on concrete inputs. *)

From Stdlib Require Import Ascii String.
From Stdlib Require Import Strings.Byte.
From Stdlib Require Import List NArith ZArith Bool Lia.
Import ListNotations.

#[local] Abbreviation length := Datatypes.length (only parsing).

Set Implicit Arguments.

(* ================================================================== *)
(** * Python strings *)
(* ================================================================== *)

(** A Python [str] is a sequence of code points. *)
Definition char := N.
Definition str := list char.

(** An ASCII literal as a [str]. *)
Definition lit (s : string) : str :=
  map N_of_ascii (list_ascii_of_string s).

(** The code point of the double quote. *)
Definition dquote : char := 34%N.

(** An ASCII literal in which the place holder [ph] stands for the double
    quote character. *)
Definition litq (ph : ascii) (s : string) : str :=
  map (fun a => if Ascii.eqb a ph then dquote else N_of_ascii a)
      (list_ascii_of_string s).

Fixpoint str_eqb (a b : str) : bool :=
  match a, b with
  | [], [] => true
  | x :: a', y :: b' => N.eqb x y && str_eqb a' b'
  | _, _ => false
  end.

(** [s.startswith(p)] *)
Fixpoint startswith (s p : str) {struct p} : bool :=
  match p with
  | [] => true
  | c :: p' =>
      match s with
      | [] => false
      | d :: s' => N.eqb d c && startswith s' p'
      end
  end.

(** [s.endswith(p)] *)
Definition endswith (s p : str) : bool :=
  (length p <=? length s)%nat &&
  str_eqb (skipn (length s - length p) s) p.

(** A slice bound as Python resolves it against a length: a negative bound
    counts from the end, and both are clamped to the sequence. *)
Definition slice_bound (len i : Z) : Z :=
  if (i <? 0)%Z then Z.max 0 (len + i) else Z.min i len.

(** [s[start:stop]] *)
Definition py_slice (A : Type) (s : list A) (start stop : Z) : list A :=
  let len := Z.of_nat (length s) in
  let a := slice_bound len start in
  let b := slice_bound len stop in
  firstn (Z.to_nat (b - a)) (skipn (Z.to_nat a) s).

(** [c.isspace()]: the code points Python's [str] treats as whitespace. *)
Definition isspace (c : char) : bool :=
  ((9 <=? c) && (c <=? 13) || (28 <=? c) && (c <=? 32)
   || (c =? 133) || (c =? 160) || (c =? 5760)
   || (8192 <=? c) && (c <=? 8202)
   || (c =? 8232) || (c =? 8233) || (c =? 8239) || (c =? 8287)
   || (c =? 12288))%N.

Fixpoint lstrip (s : str) : str :=
  match s with
  | [] => []
  | c :: s' => if isspace c then lstrip s' else s
  end.

Definition rstrip (s : str) : str := rev (lstrip (rev s)).

(** [s.strip()] *)
Definition strip (s : str) : str := rstrip (lstrip s).

(** The decimal digits of a natural number, as [str(n)] prints them. *)
Fixpoint decimal_digits (fuel : nat) (n : N) (acc : str) : str :=
  match fuel with
  | O => acc
  | S fuel' =>
      let acc' := (48 + n mod 10)%N :: acc in
      if (n <? 10)%N then acc' else decimal_digits fuel' (n / 10)%N acc'
  end.

Definition str_of_N (n : N) : str :=
  decimal_digits (S (N.to_nat (N.log2 n))) n [].

Definition str_of_Z (z : Z) : str :=
  if (z <? 0)%Z then 45%N :: str_of_N (Z.to_N (- z)) else str_of_N (Z.to_N z).

(* ================================================================== *)
(** * Python values *)
(* ================================================================== *)

(** A float, kept as the decimal the JSON text wrote: Python rounds
    [mant * 10 ^ exp10] to the nearest binary64. *)
Inductive pyfloat :=
| FNaN
| FInf (neg : bool)
| FDec (neg : bool) (mant : N) (exp10 : Z).

(** The values [json.loads] produces, which are also the values the script
    builds for the request. A [dict] keeps its items in insertion order. *)
#[warnings="-register-all"]
Inductive value :=
| VNone
| VBool (b : bool)
| VInt (z : Z)
| VFloat (f : pyfloat)
| VStr (s : str)
| VList (l : list value)
| VDict (d : list (str * value)).

(** Whether a float is zero once rounded: half of the least subnormal,
    [2 ^ -1075], rounds to even, which is zero. *)
Definition float_is_zero (f : pyfloat) : bool :=
  match f with
  | FNaN | FInf _ => false
  | FDec _ m e =>
      (m =? 0)%N ||
      ((e <? 0)%Z &&
       (Z.of_N m * 2 ^ 1075 <=? 10 ^ (- e))%Z)
  end.

(** Python's truth value of an object ([if v:]). *)
Definition truthy (v : value) : bool :=
  match v with
  | VNone => false
  | VBool b => b
  | VInt z => negb (z =? 0)%Z
  | VFloat f => negb (float_is_zero f)
  | VStr s => negb (Nat.eqb (length s) 0)
  | VList l => negb (Nat.eqb (length l) 0)
  | VDict d => negb (Nat.eqb (length d) 0)
  end.

(** Lookup in a [dict] whose keys are strings. *)
Fixpoint dict_lookup (d : list (str * value)) (k : str) : option value :=
  match d with
  | [] => None
  | (k', v) :: d' => if str_eqb k' k then Some v else dict_lookup d' k
  end.

(** [d[k] = v]: an existing key keeps its place, a new one goes last. *)
Fixpoint dict_set (d : list (str * value)) (k : str) (v : value)
  : list (str * value) :=
  match d with
  | [] => [(k, v)]
  | (k', v') :: d' =>
      if str_eqb k' k then (k', v) :: d' else (k', v') :: dict_set d' k v
  end.

(** [dict(pairs)] *)
Definition dict_of_pairs (pairs : list (str * value)) : list (str * value) :=
  fold_left (fun d kv => dict_set d (fst kv) (snd kv)) pairs [].

(** [del d[k]] *)
Fixpoint dict_del (d : list (str * value)) (k : str) : list (str * value) :=
  match d with
  | [] => []
  | (k', v) :: d' => if str_eqb k' k then d' else (k', v) :: dict_del d' k
  end.

(** [k in d] *)
Definition dict_mem (d : list (str * value)) (k : str) : bool :=
  match dict_lookup d k with Some _ => true | None => false end.

(* ================================================================== *)
(** * Exceptions, effects and the world of a script run *)
(* ================================================================== *)

(** The exceptions the script can meet. The script uses two things of an
    exception: its class, to choose the [except] clause, and the text that
    formatting it gives, which it shows; an exception is modelled by its
    class and by what determines that text (the message of an [HTTPError],
    the key of a [KeyError], a description).
    [RequestException] stands for the transport failures of
    [requests.post]; [HTTPError] is what [raise_for_status] raises and
    [RequestsJSONDecodeError] what [response.json()] raises, a class that
    inherits from both [RequestException] and [json.JSONDecodeError].
    [OtherError] is any other subclass of [Exception], as a PDF library
    raises. *)
Inductive exn :=
| RequestException (descr : str)
| HTTPError (msg : str)
| RequestsJSONDecodeError
| JSONDecodeError
| AttributeError
| KeyError (k : value)
| IndexError
| TypeError
| UnboundLocalError
| UnicodeDecodeError
| OtherError (descr : str).

(** [isinstance(e, requests.exceptions.RequestException)] *)
Definition is_RequestException (e : exn) : bool :=
  match e with
  | RequestException _ | HTTPError _ | RequestsJSONDecodeError => true
  | _ => false
  end.

(** [isinstance(e, json.JSONDecodeError)] *)
Definition is_JSONDecodeError (e : exn) : bool :=
  match e with
  | RequestsJSONDecodeError | JSONDecodeError => true
  | _ => false
  end.

Inductive outcome (A : Type) :=
| Ret (a : A)
| Raise (e : exn).
Arguments Ret {A} a.
Arguments Raise {A} e.

(** What [requests.post] is called with. *)
Record request := mkRequest {
  req_url : str;
  req_headers : list (str * str);
  req_json : value
}.

(** What the script reads of a [requests.Response]. *)
Record response := mkResponse {
  status_code : Z;
  reason : str;
  url : str;
  text : str
}.

(** A formatted string: literal text and the interpolated objects. *)
Inductive piece :=
| Lit (s : str)
| Fmt (v : value)
| FmtExn (e : exn).

(** The Streamlit calls of the script, in the order they are made. *)
Inductive event :=
| st_info (msg : list piece)
| st_error (msg : list piece)
| st_warning (msg : list piece)
| st_json (v : value)
| st_text (s : str)
| st_subheader (s : str)
| st_markdown (body : list piece) (unsafe_allow_html : bool)
| st_write (v : value)
| st_expander (label : str)
| st_text_area (label : str) (content : str)
| st_button (label : str)
| st_spinner (label : str).

Record world := mkWorld {
  ui : list event;
  sent : list request;
  session_state : list (str * value)
}.

(** Computations of the script: they read and change the world and return
    or raise. *)
Definition M (A : Type) : Type := world -> outcome A * world.

Definition ret (A : Type) (a : A) : M A := fun w => (Ret a, w).

Definition raise (A : Type) (e : exn) : M A := fun w => (Raise e, w).
Arguments raise {A} e.

Definition bind (A B : Type) (m : M A) (k : A -> M B) : M B :=
  fun w =>
    match m w with
    | (Ret a, w') => k a w'
    | (Raise e, w') => (Raise e, w')
    end.

(** [try: m  except Exception as e: h e] *)
Definition catch (A : Type) (m : M A) (h : exn -> M A) : M A :=
  fun w =>
    match m w with
    | (Ret a, w') => (Ret a, w')
    | (Raise e, w') => h e w'
    end.

Definition lift (A : Type) (o : outcome A) : M A := fun w => (o, w).

Declare Scope py_scope.
Delimit Scope py_scope with py.
Notation "x <- c1 ;; c2" := (bind c1 (fun x => c2))
  (at level 61, c1 at next level, right associativity) : py_scope.
Notation "c1 ;; c2" := (bind c1 (fun _ => c2))
  (at level 61, right associativity) : py_scope.
Open Scope py_scope.

Definition emit (e : event) : M unit :=
  fun w => (Ret tt, mkWorld (ui w ++ [e]) (sent w) (session_state w)).

(** [a and b], for its value. *)
Definition py_and (a b : M value) : M value :=
  v <- a ;; if truthy v then b else ret v.

(** [o.get(k, default)]: only a [dict] has the attribute. *)
Definition py_get (o : value) (k : str) (default : value) : M value :=
  match o with
  | VDict d =>
      match dict_lookup d k with
      | Some v => ret v
      | None => ret default
      end
  | _ => raise AttributeError
  end.

(** An index into a sequence of length [len], as Python resolves it. *)
Definition seq_index (len : nat) (i : Z) : option nat :=
  let n := Z.of_nat len in
  let j := if (i <? 0)%Z then (n + i)%Z else i in
  if ((0 <=? j) && (j <? n))%Z then Some (Z.to_nat j) else None.

(** [o[k]] on the values JSON gives: the keys of a [dict] are strings, a
    [list] and a [str] take integers, nothing else can be subscripted. *)
Definition py_getitem (o k : value) : M value :=
  match o with
  | VDict d =>
      match k with
      | VStr s =>
          match dict_lookup d s with
          | Some v => ret v
          | None => raise (KeyError k)
          end
      | VList _ | VDict _ => raise TypeError
      | _ => raise (KeyError k)
      end
  | VList l =>
      match k with
      | VInt i =>
          match seq_index (length l) i with
          | Some n =>
              match nth_error l n with
              | Some v => ret v
              | None => raise IndexError
              end
          | None => raise IndexError
          end
      | VBool b =>
          match nth_error l (if b then 1 else 0)%nat with
          | Some v => ret v
          | None => raise IndexError
          end
      | _ => raise TypeError
      end
  | VStr s =>
      match k with
      | VInt i =>
          match seq_index (length s) i with
          | Some n =>
              match nth_error s n with
              | Some c => ret (VStr [c])
              | None => raise IndexError
              end
          | None => raise IndexError
          end
      | VBool b =>
          match nth_error s (if b then 1 else 0)%nat with
          | Some c => ret (VStr [c])
          | None => raise IndexError
          end
      | _ => raise TypeError
      end
  | _ => raise TypeError
  end.

(** [for x in o]: the items a loop over [o] visits. *)
Definition py_iter (o : value) : M (list value) :=
  match o with
  | VList l => ret l
  | VStr s => ret (map (fun c => VStr [c]) s)
  | VDict d => ret (map (fun kv => VStr (fst kv)) d)
  | _ => raise TypeError
  end.

(** [for x in xs: body x] *)
Fixpoint for_each (A : Type) (xs : list A) (body : A -> M unit) : M unit :=
  match xs with
  | [] => ret tt
  | x :: xs' => body x ;; for_each xs' body
  end.

(** [io.StringIO]: a text buffer and a read position. With the default
    [newline] argument reading translates nothing. *)
Record StringIO := mkStringIO {
  sio_buffer : str;
  sio_pos : nat
}.

Definition StringIO_new (initial_value : str) : StringIO :=
  mkStringIO initial_value 0.

(** [f.read()]: the text from the position to the end, and the stream after
    the read. *)
Definition StringIO_read (f : StringIO) : str * StringIO :=
  (skipn (sio_pos f) (sio_buffer f),
   mkStringIO (sio_buffer f) (length (sio_buffer f))).

(** The file the uploader widget hands to the script. *)
Record upload := mkUpload {
  upload_type : str;
  getvalue : list byte
}.

(** What [page.extract_text()] does on one page of a PDF. *)
Definition page := outcome str.

(* ================================================================== *)
(** * The request: prompt and payload (lines 28 to 94) *)
(* ================================================================== *)

(** The text of the prompt before the document; [^] stands for the double
    quote. *)
Definition prompt_head : str := litq "^" "
    You are an AI assistant specialized in summarizing insurance documents.
    Please read the following insurance document and extract the following information in a structured JSON format:
    1.  A concise overall 'summary' of the document.
    2.  A list of 'coverages' provided by the policy.
    3.  A list of 'exclusions' (what is not covered) by the policy.
    4.  'policyDetails' as an object containing:
        -   'policyNumber' (if found)
        -   'policyHolder' (if found)
        -   'effectiveDate' (if found, e.g., ^YYYY-MM-DD^)
        -   'expirationDate' (if found, e.g., ^YYYY-MM-DD^)
        -   'premium' (if found, e.g., ^USD 1200^ or ^1200 per year^)
        -   'otherDetails' (a list of any other significant policy details not covered above).

    If a piece of information is not explicitly found, use ^N/A^ for strings or an empty list for arrays.
    Ensure the output is valid JSON.

    Document:
    ---
    ".

(** The text of the prompt after the document. *)
Definition prompt_tail : str := lit "
    ---
    ".

Definition prompt (document_text : str) : str :=
  prompt_head ++ document_text ++ prompt_tail.

Definition schema_string : value := VDict [(lit "type", VStr (lit "STRING"))].

Definition schema_string_array : value :=
  VDict [(lit "type", VStr (lit "ARRAY")); (lit "items", schema_string)].

Definition responseSchema : value :=
  VDict
    [(lit "type", VStr (lit "OBJECT"));
     (lit "properties",
      VDict
        [(lit "summary", schema_string);
         (lit "coverages", schema_string_array);
         (lit "exclusions", schema_string_array);
         (lit "policyDetails",
          VDict
            [(lit "type", VStr (lit "OBJECT"));
             (lit "properties",
              VDict
                [(lit "policyNumber", schema_string);
                 (lit "policyHolder", schema_string);
                 (lit "effectiveDate", schema_string);
                 (lit "expirationDate", schema_string);
                 (lit "premium", schema_string);
                 (lit "otherDetails", schema_string_array)]);
             (lit "propertyOrdering",
              VList
                [VStr (lit "policyNumber"); VStr (lit "policyHolder");
                 VStr (lit "effectiveDate"); VStr (lit "expirationDate");
                 VStr (lit "premium"); VStr (lit "otherDetails")])])]);
     (lit "propertyOrdering",
      VList
        [VStr (lit "summary"); VStr (lit "coverages");
         VStr (lit "exclusions"); VStr (lit "policyDetails")])].

(** [chat_history] after the one [append]: the list is created empty by
    each call. *)
Definition chat_history (document_text : str) : list value :=
  [] ++
  [VDict
     [(lit "role", VStr (lit "user"));
      (lit "parts", VList [VDict [(lit "text", VStr (prompt document_text))]])]].

Definition payload (document_text : str) : value :=
  VDict
    [(lit "contents", VList (chat_history document_text));
     (lit "generationConfig",
      VDict
        [(lit "responseMimeType", VStr (lit "application/json"));
         (lit "responseSchema", responseSchema)])].

(* ================================================================== *)
(** * The reply: fence and status (lines 98, 104 and 105) *)
(* ================================================================== *)

Definition fence_open : str := lit "```json".
Definition fence_close : str := lit "```".

(** Lines 104 and 105: the string handed to [json.loads]. *)
Definition unwrap_fence (json_string : str) : str :=
  if startswith json_string fence_open && endswith json_string fence_close
  then strip (py_slice json_string 7 (-3))
  else json_string.

(** The message of the [HTTPError] of [Response.raise_for_status]. *)
Definition http_error_msg (kind : str) (r : response) : str :=
  str_of_Z (status_code r) ++ lit " " ++ kind ++ lit " Error: " ++ reason r
  ++ lit " for url: " ++ url r.

(** [response.raise_for_status()] *)
Definition raise_for_status (r : response) : M unit :=
  if ((400 <=? status_code r) && (status_code r <? 500))%Z
  then raise (HTTPError (http_error_msg (lit "Client") r))
  else if ((500 <=? status_code r) && (status_code r <? 600))%Z
  then raise (HTTPError (http_error_msg (lit "Server") r))
  else ret tt.

(** [try: x = m; k x  except Exception as e: h], where the handlers see
    whether [x] had been bound when the exception was raised. *)
Definition try_let (A B : Type) (m : M A) (k : A -> M B)
  (h : option A -> exn -> M B) : M B :=
  fun w =>
    match m w with
    | (Raise e, w') => h None e w'
    | (Ret a, w') => catch (k a) (h (Some a)) w'
    end.

(* ================================================================== *)
(** * The script *)
(* ================================================================== *)

Section Script.

(** The environment of a run: the configured key and the libraries. *)
Variable GEMINI_API_KEY : str.

(** [bytes.decode] with the codec utf-8; it raises [UnicodeDecodeError]. *)
Variable decode_utf8 : list byte -> outcome str.

(** [json.loads]; it raises [json.JSONDecodeError]. *)
Variable json_loads : str -> outcome value.

(** [requests.post]: what the network answers to a request, given the
    requests sent before it. *)
Variable requests_post : list request -> request -> outcome response.

(** [PyPDF2.PdfReader(f).pages] *)
Variable PdfReader : list byte -> outcome (list page).

Definition api_url : str :=
  lit "https://generativelanguage.googleapis.com/v1beta/models/gemini-2.0-flash:generateContent?key="
  ++ GEMINI_API_KEY.

Definition summary_request (document_text : str) : request :=
  mkRequest api_url
    [(lit "Content-Type", lit "application/json")]
    (payload document_text).

(** The call of [requests.post]: the request leaves, the network answers. *)
Definition post (rq : request) : M response :=
  fun w =>
    (requests_post (sent w) rq,
     mkWorld (ui w) (sent w ++ [rq]) (session_state w)).

(** [response.json()]: the body decoded, a failure re-raised as the
    [JSONDecodeError] of [requests]. *)
Definition response_json (r : response) : M value :=
  match json_loads (text r) with
  | Ret v => ret v
  | Raise JSONDecodeError => raise RequestsJSONDecodeError
  | Raise e => raise e
  end.

(** [result["candidates"][0]] *)
Definition first_candidate (result : value) : M value :=
  c <- py_getitem result (VStr (lit "candidates")) ;;
  py_getitem c (VInt 0).

(** [result["candidates"][0]["content"]] *)
Definition first_content (result : value) : M value :=
  c0 <- first_candidate result ;;
  py_getitem c0 (VStr (lit "content")).

(** The condition of line 101. *)
Definition has_parts (result : value) : M value :=
  py_and
    (py_and
       (py_get result (lit "candidates") VNone)
       (c0 <- first_candidate result ;; py_get c0 (lit "content") VNone))
    (ct <- first_content result ;; py_get ct (lit "parts") VNone).

(** Lines 98 to 110: the body of the [try] once [response] is bound. *)
Definition summarize_reply (response : response) : M value :=
  raise_for_status response ;;
  result <- response_json response ;;
  ok <- has_parts result ;;
  if truthy ok then
    ct <- first_content result ;;
    parts <- py_getitem ct (VStr (lit "parts")) ;;
    part <- py_getitem parts (VInt 0) ;;
    json_string <- py_getitem part (VStr (lit "text")) ;;
    match json_string with
    | VStr s => lift (json_loads (unwrap_fence s))
    | _ => raise AttributeError
    end
  else
    emit (st_error
            [Lit (lit "Error: Could not get a valid response from the summarization model.")]) ;;
    emit (st_json result) ;;
    ret VNone.

(** Lines 111 to 120: the three [except] clauses, tried in order. *)
Definition summarize_except (response : option response) (e : exn)
  : M value :=
  if is_RequestException e then
    emit (st_error [Lit (lit "Network or API error: "); FmtExn e]) ;;
    ret VNone
  else if is_JSONDecodeError e then
    emit (st_error
            [Lit (lit "Error decoding JSON response from model: "); FmtExn e]) ;;
    match response with
    | Some r => emit (st_text (text r)) ;; ret VNone
    | None => raise UnboundLocalError
    end
  else
    emit (st_error [Lit (lit "An unexpected error occurred: "); FmtExn e]) ;;
    ret VNone.

(** Lines 21 to 120. *)
Definition summarize_document (document_text : str) : M value :=
  emit (st_info [Lit (lit "Analyzing document and generating summary...")]) ;;
  try_let (post (summary_request document_text))
          summarize_reply
          summarize_except.

(** Lines 130 and 131: the loop over [range(len(pdf_reader.pages))]. *)
Fixpoint extract_pages (pages : list page) (page_nums : list nat)
  (text : str) : M str :=
  match page_nums with
  | [] => ret text
  | page_num :: rest =>
      match nth_error pages page_num with
      | Some p => t <- lift p ;; extract_pages pages rest (text ++ t)
      | None => raise IndexError
      end
  end.

(** Lines 123 to 135. *)
Definition extract_text_from_pdf (uploaded_file : upload) : M (option str) :=
  catch
    (pages <- lift (PdfReader (getvalue uploaded_file)) ;;
     text <- extract_pages pages (seq 0 (length pages)) [] ;;
     ret (Some text))
    (fun e =>
       emit (st_error [Lit (lit "Error reading PDF file: "); FmtExn e]) ;;
       ret None).

(** Lines 228 to 234: [file_content] for an uploaded file. *)
Definition read_upload (uploaded_file : upload) : M (option str) :=
  if str_eqb (upload_type uploaded_file) (lit "text/plain") then
    s <- lift (decode_utf8 (getvalue uploaded_file)) ;;
    ret (Some (fst (StringIO_read (StringIO_new s))))
  else if str_eqb (upload_type uploaded_file) (lit "application/pdf") then
    extract_text_from_pdf uploaded_file
  else
    emit (st_error
            [Lit (lit "Unsupported file type. Please upload a .txt or .pdf file.")]) ;;
    ret None.

(** A loop that writes one bullet for each item. *)
Definition bullets (items : value) : M unit :=
  xs <- py_iter items ;;
  for_each xs (fun x => emit (st_markdown [Lit (lit "- "); Fmt x] false)).

Definition NA : value := VStr (lit "N/A").

(** The markdown of lines 275 to 284 around the five values; ['] stands
    for the double quote. *)
Definition policy_table_markdown
  (policyNumber policyHolder effectiveDate expirationDate premium : value)
  : event :=
  st_markdown
    [Lit (litq "'" "
                            <table class='policy-details-table'>
                                <tr><th>Detail</th><th>Value</th></tr>
                                <tr><td>Policy Number</td><td>");
     Fmt policyNumber;
     Lit (lit "</td></tr>
                                <tr><td>Policy Holder</td><td>");
     Fmt policyHolder;
     Lit (lit "</td></tr>
                                <tr><td>Effective Date</td><td>");
     Fmt effectiveDate;
     Lit (lit "</td></tr>
                                <tr><td>Expiration Date</td><td>");
     Fmt expirationDate;
     Lit (lit "</td></tr>
                                <tr><td>Premium</td><td>");
     Fmt premium;
     Lit (lit "</td></tr>
                            </table>
                            ")]
    true.

(** Lines 275 to 284: the five reads and the table. *)
Definition policy_table (policy_details : value) : M unit :=
  policyNumber <- py_get policy_details (lit "policyNumber") NA ;;
  policyHolder <- py_get policy_details (lit "policyHolder") NA ;;
  effectiveDate <- py_get policy_details (lit "effectiveDate") NA ;;
  expirationDate <- py_get policy_details (lit "expirationDate") NA ;;
  premium <- py_get policy_details (lit "premium") NA ;;
  emit (policy_table_markdown policyNumber policyHolder effectiveDate
          expirationDate premium).

(** Lines 252 to 292: the report for a truthy [summary_data]. *)
Definition render_summary (summary_data : value) : M unit :=
  emit (st_markdown [Lit (litq "'" "<div class='summary-section'>")] true) ;;
  emit (st_subheader (lit "Summary Report")) ;;
  emit (st_markdown [Lit (lit "### Overall Summary")] false) ;;
  summary <- py_get summary_data (lit "summary") NA ;;
  emit (st_write summary) ;;
  emit (st_markdown [Lit (lit "### Coverages")] false) ;;
  coverages <- py_get summary_data (lit "coverages") VNone ;;
  (if truthy coverages then
     items <- py_getitem summary_data (VStr (lit "coverages")) ;;
     bullets items
   else
     emit (st_write (VStr (lit "No specific coverages found or identified.")))) ;;
  emit (st_markdown [Lit (lit "### Exclusions")] false) ;;
  exclusions <- py_get summary_data (lit "exclusions") VNone ;;
  (if truthy exclusions then
     items <- py_getitem summary_data (VStr (lit "exclusions")) ;;
     bullets items
   else
     emit (st_write (VStr (lit "No specific exclusions found or identified.")))) ;;
  emit (st_markdown [Lit (lit "### Policy Details")] false) ;;
  policy_details <- py_get summary_data (lit "policyDetails") (VDict []) ;;
  (if truthy policy_details then
     policy_table policy_details ;;
     otherDetails <- py_get policy_details (lit "otherDetails") VNone ;;
     if truthy otherDetails then
       emit (st_markdown [Lit (lit "#### Other Policy Details")] false) ;;
       items <- py_getitem policy_details (VStr (lit "otherDetails")) ;;
       bullets items
     else ret tt
   else
     emit (st_write
             (VStr (lit "No specific policy details found or identified.")))) ;;
  emit (st_markdown [Lit (lit "</div>")] true).

(** [del st.session_state[k]] *)
Definition session_del (k : str) : M unit :=
  fun w => (Ret tt, mkWorld (ui w) (sent w) (dict_del (session_state w) k)).

(** [st.session_state[k] = v] *)
Definition session_set (k : str) (v : value) : M unit :=
  fun w => (Ret tt, mkWorld (ui w) (sent w) (dict_set (session_state w) k v)).

(** [k in st.session_state] *)
Definition session_mem (k : str) : M bool :=
  fun w => (Ret (dict_mem (session_state w) k), w).

Definition failure_message : event :=
  st_error
    [Lit (lit "Failed to generate summary. Please try again or check the document content.")].

(** Lines 242 to 296: the button was pressed. *)
Definition on_summarize (file_content : str) : M unit :=
  if truthy (VStr file_content) then
    emit (st_spinner (lit "Summarizing your document... This may take a moment.")) ;;
    present <- session_mem (lit "summary_data") ;;
    (if present then session_del (lit "summary_data") else ret tt) ;;
    summary_data <- summarize_document file_content ;;
    session_set (lit "summary_data") summary_data ;;
    if truthy summary_data then render_summary summary_data
    else emit failure_message
  else
    emit (st_warning
            [Lit (lit "Could not extract content from the uploaded document.")]).

(** Lines 227 to 304: one run of the script from the uploader on, for the
    file in the uploader and whether the button is pressed in this run. *)
Definition script (uploaded_file : option upload) (clicked : bool) : M unit :=
  match uploaded_file with
  | Some f =>
      file_content <- read_upload f ;;
      match file_content with
      | Some s =>
          if truthy (VStr s) then
            emit (st_subheader (lit "Uploaded Document Preview:")) ;;
            emit (st_expander (lit "Click to view document content")) ;;
            emit (st_text_area (lit "Document Content") s) ;;
            emit (st_button (lit "Summarize Document")) ;;
            if clicked then on_summarize s else ret tt
          else
            emit (st_warning [Lit (lit "Please upload a document to summarize.")])
      | None =>
          emit (st_warning [Lit (lit "Please upload a document to summarize.")])
      end
  | None =>
      emit (st_info
              [Lit (lit "Upload a .txt or .pdf file to begin summarization.")]) ;;
      emit (st_markdown
              [Lit (lit "
    **Note:** This application now supports plain text files (.txt) and PDF files (.pdf).
    For best results, ensure your document is clear and well-formatted.
    ")] false)
  end.

End Script.

(* ================================================================== *)
(** * A JSON decoder: the grammar [json.loads] accepts *)
(* ================================================================== *)

Module Json.

(** The four characters the decoder skips between tokens. *)
Definition is_ws (c : char) : bool :=
  ((c =? 32) || (c =? 9) || (c =? 10) || (c =? 13))%N.

Fixpoint skip_ws (s : str) : str :=
  match s with
  | [] => []
  | c :: s' => if is_ws c then skip_ws s' else s
  end.

Definition is_digit (c : char) : bool := ((48 <=? c) && (c <=? 57))%N.

Definition hex_digit (c : char) : option N :=
  if is_digit c then Some (c - 48)%N
  else if ((97 <=? c) && (c <=? 102))%N then Some (c - 87)%N
  else if ((65 <=? c) && (c <=? 70))%N then Some (c - 55)%N
  else None.

Definition hex4 (a b c d : char) : option N :=
  match hex_digit a, hex_digit b, hex_digit c, hex_digit d with
  | Some x, Some y, Some z, Some t => Some (((x * 16 + y) * 16 + z) * 16 + t)%N
  | _, _, _, _ => None
  end.

(** The character a one-letter escape stands for. *)
Definition simple_escape (c : char) : option char :=
  if (c =? 34)%N then Some 34%N            (* the double quote *)
  else if (c =? 92)%N then Some 92%N       (* backslash *)
  else if (c =? 47)%N then Some 47%N       (* slash *)
  else if (c =? 98)%N then Some 8%N        (* b *)
  else if (c =? 102)%N then Some 12%N      (* f *)
  else if (c =? 110)%N then Some 10%N      (* n *)
  else if (c =? 114)%N then Some 13%N      (* r *)
  else if (c =? 116)%N then Some 9%N       (* t *)
  else None.

Definition is_high_surrogate (c : N) : bool := ((55296 <=? c) && (c <=? 56319))%N.
Definition is_low_surrogate (c : N) : bool := ((56320 <=? c) && (c <=? 57343))%N.

Definition join_surrogates (hi lo : N) : N :=
  (65536 + (hi - 55296) * 1024 + (lo - 56320))%N.

(** The body of a string literal, from after its opening quote; [acc] holds
    the characters read so far, last first. *)
Fixpoint scan_string (s : str) (acc : str) : option (str * str) :=
  match s with
  | [] => None
  | c :: s1 =>
      if (c =? 34)%N then Some (rev acc, s1)
      else if (c <? 32)%N then None
      else if (c =? 92)%N then
        match s1 with
        | [] => None
        | e :: s2 =>
            if (e =? 117)%N then
              match s2 with
              | h1 :: h2 :: h3 :: h4 :: s6 =>
                  match hex4 h1 h2 h3 h4 with
                  | None => None
                  | Some cp =>
                      if is_high_surrogate cp then
                        match s6 with
                        | b :: u :: k1 :: k2 :: k3 :: k4 :: s12 =>
                            if ((b =? 92) && (u =? 117))%N then
                              match hex4 k1 k2 k3 k4 with
                              | None => None
                              | Some cp2 =>
                                  if is_low_surrogate cp2
                                  then scan_string s12 (join_surrogates cp cp2 :: acc)
                                  else scan_string s6 (cp :: acc)
                              end
                            else scan_string s6 (cp :: acc)
                        | _ => scan_string s6 (cp :: acc)
                        end
                      else scan_string s6 (cp :: acc)
                  end
              | _ => None
              end
            else
              match simple_escape e with
              | Some ch => scan_string s2 (ch :: acc)
              | None => None
              end
        end
      else scan_string s1 (c :: acc)
  end.

(** The longest run of digits at the head of [s], and what follows it. *)
Fixpoint span_digits (s : str) : str * str :=
  match s with
  | [] => ([], [])
  | c :: s' =>
      if is_digit c
      then let (d, r) := span_digits s' in (c :: d, r)
      else ([], s)
  end.

Definition digits_value (d : str) : N :=
  fold_left (fun a c => (10 * a + (c - 48))%N) d 0%N.

(** The integer part: a lone zero, or a run of digits not led by zero. *)
Definition scan_int_part (s : str) : option (str * str) :=
  match s with
  | [] => None
  | c :: s' =>
      if (c =? 48)%N then Some ([c], s')
      else if is_digit c then Some (span_digits s)
      else None
  end.

(** The fraction, when a point and a digit follow. *)
Definition scan_frac (s : str) : str * str :=
  match s with
  | p :: d :: _ =>
      if ((p =? 46)%N && is_digit d)%bool then span_digits (tl s) else ([], s)
  | _ => ([], s)
  end.

(** The exponent, when [e] or [E], an optional sign and a digit follow. *)
Definition scan_exp (s : str) : option Z * str :=
  match s with
  | e :: s1 =>
      if ((e =? 101) || (e =? 69))%N then
        let (neg, s2) :=
          match s1 with
          | sg :: s1' =>
              if (sg =? 45)%N then (true, s1')
              else if (sg =? 43)%N then (false, s1')
              else (false, s1)
          | [] => (false, s1)
          end in
        match span_digits s2 with
        | ([], _) => (None, s)
        | (d, rest) =>
            let n := Z.of_N (digits_value d) in
            (Some (if neg then (- n)%Z else n), rest)
        end
      else (None, s)
  | [] => (None, s)
  end.

(** A number: an [int] when it has neither fraction nor exponent, a [float]
    otherwise. *)
Definition scan_number (s : str) : option (value * str) :=
  let (neg, s1) :=
    match s with
    | c :: s' => if (c =? 45)%N then (true, s') else (false, s)
    | [] => (false, s)
    end in
  match scan_int_part s1 with
  | None => None
  | Some (int_digits, s2) =>
      let (frac_digits, s3) := scan_frac s2 in
      let (exponent, s4) := scan_exp s3 in
      match frac_digits, exponent with
      | [], None =>
          let n := Z.of_N (digits_value int_digits) in
          Some (VInt (if neg then (- n)%Z else n), s4)
      | _, _ =>
          let e := match exponent with Some e => e | None => 0%Z end in
          Some (VFloat
                  (FDec neg (digits_value (int_digits ++ frac_digits))
                        (e - Z.of_nat (length frac_digits))),
                s4)
      end
  end.

(** [s] with the prefix [p] removed, when it starts with it. *)
Definition strip_prefix (p s : str) : option str :=
  if startswith s p then Some (skipn (length p) s) else None.

Inductive scan :=
| Scanned (v : value) (rest : str)
| Malformed
| Exhausted.

(** The words that stand for a value, and numbers. *)
Definition scan_atom (s : str) : scan :=
  match strip_prefix (lit "null") s with
  | Some r => Scanned VNone r
  | None =>
  match strip_prefix (lit "true") s with
  | Some r => Scanned (VBool true) r
  | None =>
  match strip_prefix (lit "false") s with
  | Some r => Scanned (VBool false) r
  | None =>
  match strip_prefix (lit "NaN") s with
  | Some r => Scanned (VFloat FNaN) r
  | None =>
  match strip_prefix (lit "Infinity") s with
  | Some r => Scanned (VFloat (FInf false)) r
  | None =>
  match strip_prefix (lit "-Infinity") s with
  | Some r => Scanned (VFloat (FInf true)) r
  | None =>
  match scan_number s with
  | Some (v, r) => Scanned v r
  | None => Malformed
  end end end end end end end.

(** One value at the head of [s]; the items of an array after its first
    bracket; the members of an object after its first brace. *)
Fixpoint scan_once (fuel : nat) (s : str) {struct fuel} : scan :=
  match fuel with
  | O => Exhausted
  | S fuel' =>
      match s with
      | [] => Malformed
      | c :: s' =>
          if (c =? 34)%N then
            match scan_string s' [] with
            | Some (k, rest) => Scanned (VStr k) rest
            | None => Malformed
            end
          else if (c =? 123)%N then
            match skip_ws s' with
            | [] => Malformed
            | c1 :: s2 =>
                if (c1 =? 125)%N then Scanned (VDict []) s2
                else scan_members fuel' (c1 :: s2) []
            end
          else if (c =? 91)%N then
            match skip_ws s' with
            | [] => Malformed
            | c1 :: s2 =>
                if (c1 =? 93)%N then Scanned (VList []) s2
                else scan_items fuel' (c1 :: s2) []
            end
          else scan_atom s
      end
  end
with scan_items (fuel : nat) (s : str) (acc : list value) {struct fuel}
  : scan :=
  match fuel with
  | O => Exhausted
  | S fuel' =>
      match scan_once fuel' s with
      | Scanned v rest =>
          match skip_ws rest with
          | [] => Malformed
          | c :: rest' =>
              if (c =? 93)%N then Scanned (VList (rev (v :: acc))) rest'
              else if (c =? 44)%N
                   then scan_items fuel' (skip_ws rest') (v :: acc)
                   else Malformed
          end
      | r => r
      end
  end
with scan_members (fuel : nat) (s : str) (acc : list (str * value))
  {struct fuel} : scan :=
  match fuel with
  | O => Exhausted
  | S fuel' =>
      match s with
      | [] => Malformed
      | q :: s1 =>
          if negb (q =? 34)%N then Malformed
          else
            match scan_string s1 [] with
            | None => Malformed
            | Some (key, s2) =>
                match skip_ws s2 with
                | [] => Malformed
                | colon :: s3 =>
                    if negb (colon =? 58)%N then Malformed
                    else
                      match scan_once fuel' (skip_ws s3) with
                      | Scanned v rest =>
                          match skip_ws rest with
                          | [] => Malformed
                          | c :: rest' =>
                              if (c =? 125)%N
                              then Scanned
                                     (VDict (dict_of_pairs (rev ((key, v) :: acc))))
                                     rest'
                              else if (c =? 44)%N
                                   then scan_members fuel' (skip_ws rest')
                                          ((key, v) :: acc)
                                   else Malformed
                          end
                      | r => r
                      end
                end
            end
      end
  end.

(** [json.loads(s)] for a [str]: one value, white space around it, and
    nothing else. Every recursive call is made after a character has been
    read, so fuel for twice the length is never used up (this is
    [loads_fuel_suffices] below). *)
Definition loads (s : str) : outcome value :=
  if startswith s [65279%N] then Raise JSONDecodeError
  else
    match scan_once (2 * length s + 2) (skip_ws s) with
    | Scanned v rest =>
        match skip_ws rest with
        | [] => Ret v
        | _ :: _ => Raise JSONDecodeError
        end
    | Malformed | Exhausted => Raise JSONDecodeError
    end.

End Json.

(* ================================================================== *)
(** * The UTF-8 codec: [bytes.decode] and [str.encode] *)
(* ================================================================== *)

Module Utf8.

(** The byte with the value [n mod 256]. *)
Definition byte_of_N (n : N) : byte :=
  match Byte.of_N (n mod 256) with
  | Some b => b
  | None => x00
  end.

(** A continuation byte, [0x80] to [0xBF]. *)
Definition is_cont (n : N) : bool := ((128 <=? n) && (n <? 192))%N.

Definition is_surrogate (c : N) : bool := ((55296 <=? c) && (c <=? 57343))%N.

(** The strict decoder: shortest form only, no surrogates, nothing above
    [0x10FFFF]. *)
Fixpoint decode_points (bs : list byte) : option str :=
  match bs with
  | [] => Some []
  | b0 :: r0 =>
      let n0 := Byte.to_N b0 in
      if (n0 <? 128)%N then
        option_map (cons n0) (decode_points r0)
      else if (n0 <? 192)%N then None
      else if (n0 <? 224)%N then
        match r0 with
        | b1 :: r1 =>
            let n1 := Byte.to_N b1 in
            let c := ((n0 - 192) * 64 + (n1 - 128))%N in
            if is_cont n1 && (128 <=? c)%N
            then option_map (cons c) (decode_points r1)
            else None
        | _ => None
        end
      else if (n0 <? 240)%N then
        match r0 with
        | b1 :: b2 :: r2 =>
            let n1 := Byte.to_N b1 in
            let n2 := Byte.to_N b2 in
            let c := (((n0 - 224) * 64 + (n1 - 128)) * 64 + (n2 - 128))%N in
            if is_cont n1 && is_cont n2 && (2048 <=? c)%N
               && negb (is_surrogate c)
            then option_map (cons c) (decode_points r2)
            else None
        | _ => None
        end
      else if (n0 <? 248)%N then
        match r0 with
        | b1 :: b2 :: b3 :: r3 =>
            let n1 := Byte.to_N b1 in
            let n2 := Byte.to_N b2 in
            let n3 := Byte.to_N b3 in
            let c :=
              ((((n0 - 240) * 64 + (n1 - 128)) * 64 + (n2 - 128)) * 64
               + (n3 - 128))%N in
            if is_cont n1 && is_cont n2 && is_cont n3
               && (65536 <=? c)%N && (c <=? 1114111)%N
            then option_map (cons c) (decode_points r3)
            else None
        | _ => None
        end
      else None
  end.

(** [b.decode] with the codec utf-8 *)
Definition decode (bs : list byte) : outcome str :=
  match decode_points bs with
  | Some s => Ret s
  | None => Raise UnicodeDecodeError
  end.

(** A code point that has an encoding. *)
Definition is_scalar (c : N) : bool :=
  (c <=? 1114111)%N && negb (is_surrogate c).

Definition encode_point (c : N) : list byte :=
  if (c <? 128)%N then [byte_of_N c]
  else if (c <? 2048)%N then
    [byte_of_N (192 + c / 64); byte_of_N (128 + c mod 64)]
  else if (c <? 65536)%N then
    [byte_of_N (224 + c / 4096); byte_of_N (128 + (c / 64) mod 64);
     byte_of_N (128 + c mod 64)]
  else
    [byte_of_N (240 + c / 262144); byte_of_N (128 + (c / 4096) mod 64);
     byte_of_N (128 + (c / 64) mod 64); byte_of_N (128 + c mod 64)].

(** [s.encode] with the codec utf-8, for a string of scalar values. *)
Definition encode (s : str) : list byte := flat_map encode_point s.

End Utf8.

(* ================================================================== *)
(** * Vocabulary of the statements *)
(* ================================================================== *)

(** The world [w] after the events [evs] were shown. *)
Definition add_ui (w : world) (evs : list event) : world :=
  mkWorld (ui w ++ evs) (sent w) (session_state w).

(** The world [w] after the request [rq] was sent. *)
Definition add_sent (w : world) (rq : request) : world :=
  mkWorld (ui w) (sent w ++ [rq]) (session_state w).

(** A world in which nothing has happened yet. *)
Definition fresh : world := mkWorld [] [] [].

(** The path [candidates[0].content.parts[0].text] of a reply envelope, in
    the words of the specification: the member [text] of the first part of
    the content of the first candidate. *)
Definition spec_candidate_text (result : value) : option value :=
  match result with
  | VDict d =>
      match dict_lookup d (lit "candidates") with
      | Some (VList (VDict c0 :: _)) =>
          match dict_lookup c0 (lit "content") with
          | Some (VDict ct) =>
              match dict_lookup ct (lit "parts") with
              | Some (VList (VDict p0 :: _)) => dict_lookup p0 (lit "text")
              | _ => None
              end
          | _ => None
          end
      | _ => None
      end
  | _ => None
  end.

(** Fence removal in the words of the specification: exactly the first
    seven and the last three characters go. *)
Definition spec_unwrap_fence (s : str) : str :=
  if startswith s fence_open && endswith s fence_close
  then skipn 7 (firstn (length s - 3) s)
  else s.

(** A result populated as the specification words it: all four members
    present, every list empty and every policy string the sentinel. *)
Definition spec_defaults_filled (v : value) : Prop :=
  exists d pd,
    v = VDict d /\
    dict_lookup d (lit "coverages") = Some (VList []) /\
    dict_lookup d (lit "exclusions") = Some (VList []) /\
    dict_lookup d (lit "policyDetails") = Some (VDict pd) /\
    dict_lookup pd (lit "policyNumber") = Some NA /\
    dict_lookup pd (lit "policyHolder") = Some NA /\
    dict_lookup pd (lit "effectiveDate") = Some NA /\
    dict_lookup pd (lit "expirationDate") = Some NA /\
    dict_lookup pd (lit "premium") = Some NA /\
    dict_lookup pd (lit "otherDetails") = Some (VList []).

(** A status that [raise_for_status] lets through. *)
Definition status_passes (r : response) : Prop :=
  (status_code r < 400 \/ 600 <= status_code r)%Z.

(** The reply of the model service with the given status and body. *)
Definition reply (status : Z) (body : str) : response :=
  mkResponse status (lit "OK") (lit "https://generativelanguage.googleapis.com/") body.

(** The body of an envelope whose one candidate has one part with the
    given text, written as JSON; ['] stands for the double quote. *)
Definition envelope_of (escaped_text : str) : str :=
  litq "'" "{'candidates':[{'content':{'parts':[{'text':'"
  ++ escaped_text ++ litq "'" "'}]}}]}".

(** A string all of whose characters are white space. *)
Definition all_space (s : str) : Prop := Forall (fun c => isspace c = true) s.

(** A string that neither begins nor ends with white space. *)
Definition no_leading_space (s : str) : Prop :=
  match s with
  | [] => True
  | c :: _ => isspace c = false
  end.

Definition trimmed (s : str) : Prop :=
  no_leading_space s /\ no_leading_space (rev s).

(** The first message of [summarize_document]. *)
Definition analyzing : event :=
  st_info [Lit (lit "Analyzing document and generating summary...")].

(** The report of the first [except] clause. *)
Definition network_or_api_error (e : exn) : event :=
  st_error [Lit (lit "Network or API error: "); FmtExn e].

(** The report of the second [except] clause. *)
Definition decode_error (e : exn) : event :=
  st_error [Lit (lit "Error decoding JSON response from model: "); FmtExn e].

(** The report of the third [except] clause. *)
Definition unexpected_error (e : exn) : event :=
  st_error [Lit (lit "An unexpected error occurred: "); FmtExn e].

(** The report of the [else] branch of line 107. *)
Definition no_valid_response : event :=
  st_error
    [Lit (lit "Error: Could not get a valid response from the summarization model.")].

(** The world once [summarize_document] has sent its request for the
    document [t] and shown [evs] after its first message. *)
Definition after_request (key : str) (t : str) (w : world)
  (evs : list event) : world :=
  mkWorld (ui w ++ analyzing :: evs)
          (sent w ++ [summary_request key t])
          (session_state w).

(** The session slot after a run that stored [v]: the old entry is deleted
    first, then the new one is written. *)
Definition session_after_run (w : world) (v : value) : list (str * value) :=
  dict_set
    (if dict_mem (session_state w) (lit "summary_data")
     then dict_del (session_state w) (lit "summary_data")
     else session_state w)
    (lit "summary_data") v.

(** The spinner of line 243. *)
Definition summarizing : event :=
  st_spinner (lit "Summarizing your document... This may take a moment.").

(** A computation that sends nothing. *)
Definition keeps_sent (A : Type) (m : M A) : Prop :=
  forall w, sent (snd (m w)) = sent w.

(** The class word in the message of [raise_for_status]. *)
Definition error_kind (r : response) : str :=
  if (status_code r <? 500)%Z then lit "Client" else lit "Server".

(** The world when [summarize_document] is called from the button: the
    spinner is shown and the old entry of the session is deleted. *)
Definition cleared (w : world) : world :=
  mkWorld (ui w ++ [summarizing]) (sent w)
          (if dict_mem (session_state w) (lit "summary_data")
           then dict_del (session_state w) (lit "summary_data")
           else session_state w).

(** The world after a press of the button that sent the request for [t],
    showed [evs] after the spinner and the first message, and stored [v]. *)
Definition after_run (key : str) (t : str) (w : world) (evs : list event)
  (v : value) : world :=
  mkWorld (ui w ++ summarizing :: analyzing :: evs)
          (sent w ++ [summary_request key t])
          (session_after_run w v).

(** The exception [raise_for_status] raises for the response [r]. *)
Definition http_error (r : response) : exn :=
  HTTPError (http_error_msg (error_kind r) r).

(** What [d.get(k, default)] returns on a [dict]. *)
Definition get_or (d : list (str * value)) (k : str) (default : value)
  : value :=
  match dict_lookup d k with
  | Some v => v
  | None => default
  end.

(** The report for a result that has neither coverages, nor exclusions,
    nor policy details. *)
Definition report_without_details (summary : value) : list event :=
  [st_markdown [Lit (litq "'" "<div class='summary-section'>")] true;
   st_subheader (lit "Summary Report");
   st_markdown [Lit (lit "### Overall Summary")] false;
   st_write summary;
   st_markdown [Lit (lit "### Coverages")] false;
   st_write (VStr (lit "No specific coverages found or identified."));
   st_markdown [Lit (lit "### Exclusions")] false;
   st_write (VStr (lit "No specific exclusions found or identified."));
   st_markdown [Lit (lit "### Policy Details")] false;
   st_write (VStr (lit "No specific policy details found or identified."));
   st_markdown [Lit (lit "</div>")] true].

(** A reply envelope without the parts, in the words of the specification:
    no candidates, or a first candidate without content, or a content
    without parts. *)
Definition spec_parts_absent (result : value) : Prop :=
  exists d,
    result = VDict d /\
    (dict_lookup d (lit "candidates") = None \/
     exists c0 cs,
       dict_lookup d (lit "candidates") = Some (VList (VDict c0 :: cs)) /\
       (dict_lookup c0 (lit "content") = None \/
        exists ct,
          dict_lookup c0 (lit "content") = Some (VDict ct) /\
          dict_lookup ct (lit "parts") = None)).

(** The candidate text of the default-substitution example of the
    specification, as it stands inside an envelope: the quotes escaped.
    ['] stands for the double quote. *)
Definition summary_ok_escaped : str := litq "'" "{\'summary\':\'ok\'}".

(** The value that text decodes to. *)
Definition summary_ok : value := VDict [(lit "summary", VStr (lit "ok"))].

(** A network that answers every request with [r]. *)
Definition always (r : response) : list request -> request -> outcome response :=
  fun _ _ => Ret r.

(** A server error with the given body. *)
Definition server_error (body : str) : response :=
  mkResponse 500 (lit "Internal Server Error")
    (lit "https://generativelanguage.googleapis.com/") body.

(** An envelope whose first part has no text; ['] stands for the double
    quote. *)
Definition envelope_without_text : str :=
  litq "'" "{'candidates':[{'content':{'parts':[{}]}}]}".

(** The report of the handler of [extract_text_from_pdf]. *)
Definition pdf_read_error (e : exn) : event :=
  st_error [Lit (lit "Error reading PDF file: "); FmtExn e].

(** The warning shown when there is no content to summarize. *)
Definition nothing_to_summarize : event :=
  st_warning [Lit (lit "Please upload a document to summarize.")].

(** The preview of a document and the button under it. *)
Definition preview (file_content : str) : list event :=
  [st_subheader (lit "Uploaded Document Preview:");
   st_expander (lit "Click to view document content");
   st_text_area (lit "Document Content") file_content;
   st_button (lit "Summarize Document")].

(** An uploaded text file and an uploaded PDF file. *)
Definition text_file (content : list byte) : upload :=
  mkUpload (lit "text/plain") content.

Definition pdf_file (content : list byte) : upload :=
  mkUpload (lit "application/pdf") content.

(** A string of code points that [str.encode] can encode. *)
Definition scalar_string (s : str) : Prop :=
  Forall (fun c => Utf8.is_scalar c = true) s.

(** A reader that finds the given pages in every file. *)
Definition reader_of (pages : list page) : list byte -> outcome (list page) :=
  fun _ => Ret pages.

(** The bytes of a blank, an e with an acute accent, a carriage return, a
    line feed and a blank. *)
Definition sample_bytes : list byte := [x20; xc3; xa9; x0d; x0a; x20].

(** The code points of that text. *)
Definition sample_text : str := [32; 233; 13; 10; 32]%N.

(** A computation that only shows events: it sends nothing and leaves the
    session as it is, whether it returns or raises. *)
Definition only_shows (A : Type) (m : M A) : Prop :=
  forall w, exists evs, snd (m w) = add_ui w evs.

(** One line of a bulleted list. *)
Definition bullet (x : value) : event :=
  st_markdown [Lit (lit "- "); Fmt x] false.

(** The error of line 234. *)
Definition unsupported_type : event :=
  st_error
    [Lit (lit "Unsupported file type. Please upload a .txt or .pdf file.")].

(** The head of every report: lines 252 to 255. *)
Definition report_head : list event :=
  [st_markdown [Lit (litq "'" "<div class='summary-section'>")] true;
   st_subheader (lit "Summary Report");
   st_markdown [Lit (lit "### Overall Summary")] false].

(** The report for a result whose coverages, exclusions and other details
    are the lists [cs], [es] and [os], none of them empty, and whose policy
    details are the object [pd]. *)
Definition full_report (summary : value) (cs es : list value)
  (pd : list (str * value)) (os : list value) : list event :=
  report_head
  ++ [st_write summary; st_markdown [Lit (lit "### Coverages")] false]
  ++ map bullet cs
  ++ [st_markdown [Lit (lit "### Exclusions")] false]
  ++ map bullet es
  ++ [st_markdown [Lit (lit "### Policy Details")] false;
      policy_table_markdown
        (get_or pd (lit "policyNumber") NA)
        (get_or pd (lit "policyHolder") NA)
        (get_or pd (lit "effectiveDate") NA)
        (get_or pd (lit "expirationDate") NA)
        (get_or pd (lit "premium") NA);
      st_markdown [Lit (lit "#### Other Policy Details")] false]
  ++ map bullet os
  ++ [st_markdown [Lit (lit "</div>")] true].

(** A value that is not a [dict]. *)
Definition not_a_dict (v : value) : Prop :=
  match v with
  | VDict _ => False
  | _ => True
  end.

(** A value that is not a [str]. *)
Definition not_a_str (v : value) : Prop :=
  match v with
  | VStr _ => False
  | _ => True
  end.

(** A network that is down: every request fails with [e]. *)
Definition down (e : exn) : list request -> request -> outcome response :=
  fun _ _ => Raise e.

(** The code point of the backtick. *)
Definition backtick : char := 96%N.

(** The candidate text of a full result, as it stands inside an envelope;
    ['] stands for the double quote. *)
Definition full_result_escaped : str :=
  litq "'" "{\'summary\':\'Auto policy\',\'coverages\':[\'collision\',\'theft\'],\'exclusions\':[\'racing\'],\'policyDetails\':{\'policyNumber\':\'123\',\'otherDetails\':[\'rated yearly\']}}".

(** The object that text decodes to, and its policy details. *)
Definition full_policy : list (str * value) :=
  [(lit "policyNumber", VStr (lit "123"));
   (lit "otherDetails", VList [VStr (lit "rated yearly")])].

Definition full_result : list (str * value) :=
  [(lit "summary", VStr (lit "Auto policy"));
   (lit "coverages", VList [VStr (lit "collision"); VStr (lit "theft")]);
   (lit "exclusions", VList [VStr (lit "racing")]);
   (lit "policyDetails", VDict full_policy)].

(** The fenced text of the summary example inside an envelope, with a
    blank on each side of the body. *)
Definition fenced_summary_escaped : str :=
  litq "'" "```json {\'summary\':\'ok\'} ```".

(** A session that holds an old summary and an entry of another kind. *)
Definition used_world : world :=
  mkWorld [] []
    [(lit "theme", VStr (lit "dark")); (lit "summary_data", VStr (lit "old"))].

(** A file of a type the uploader does not take. *)
Definition word_file : upload := mkUpload (lit "application/msword") [].

(* ================================================================== *)
(** * Strings *)
(* ================================================================== *)

Lemma str_eqb_eq (a b : str) : str_eqb a b = true <-> a = b.
Proof.
  revert b; induction a as [|x a IH]; intros [|y b]; simpl;
    try (split; [discriminate | discriminate]); try tauto.
  rewrite andb_true_iff, N.eqb_eq, IH.
  split; [intros [-> ->]; reflexivity | intros H; inversion H; auto].
Qed.

Lemma str_eqb_refl (a : str) : str_eqb a a = true.
Proof. apply str_eqb_eq; reflexivity. Qed.

Lemma startswith_app (s p : str) :
  startswith s p = true <-> exists r, s = p ++ r.
Proof.
  revert s; induction p as [|c p IH]; intros s; simpl.
  - split; [exists s; reflexivity | reflexivity].
  - destruct s as [|d s].
    + split; [discriminate | intros [r H]; discriminate].
    + rewrite andb_true_iff, N.eqb_eq, IH. split.
      * intros [-> [r ->]]. exists r; reflexivity.
      * intros [r H]. inversion H; subst. split; [reflexivity | exists r; reflexivity].
Qed.

Lemma endswith_app (s p : str) :
  endswith s p = true <-> exists r, s = r ++ p.
Proof.
  unfold endswith. rewrite andb_true_iff, Nat.leb_le, str_eqb_eq. split.
  - intros [Hlen H]. remember (length s - length p)%nat as n eqn:Hn.
    exists (firstn n s). rewrite <- H. symmetry; apply firstn_skipn.
  - intros [r ->]. rewrite length_app. split; [lia|].
    replace (length r + length p - length p)%nat with (length r + 0)%nat by lia.
    rewrite skipn_app, Nat.add_comm. simpl.
    rewrite skipn_all2 by lia. simpl.
    replace (length r - length r)%nat with 0%nat by lia. reflexivity.
Qed.

Lemma lstrip_spec (s : str) :
  exists l, s = l ++ lstrip s /\ all_space l /\ no_leading_space (lstrip s).
Proof.
  induction s as [|c s (l & Hs & Hl & Hn)]; simpl.
  - exists []. repeat split. constructor.
  - destruct (isspace c) eqn:Hc.
    + exists (c :: l). simpl. rewrite <- Hs. repeat split; auto.
      constructor; auto.
    + exists []. simpl. repeat split; auto. constructor.
Qed.

Lemma no_leading_space_prefix (a b : str) :
  no_leading_space (a ++ b) -> no_leading_space a.
Proof. destruct a; simpl; auto. Qed.

Lemma strip_spec (s : str) :
  exists l r,
    s = l ++ strip s ++ r /\ all_space l /\ all_space r /\ trimmed (strip s).
Proof.
  unfold strip, rstrip.
  destruct (lstrip_spec s) as (l & Hs & Hl & Hn).
  destruct (lstrip_spec (rev (lstrip s))) as (r & Hr & Hrs & Hrn).
  exists l, (rev r). repeat split; auto.
  - rewrite Hs at 1. f_equal.
    rewrite <- (rev_involutive (lstrip s)) at 1.
    rewrite Hr at 1. apply rev_app_distr.
  - apply Forall_rev; exact Hrs.
  - apply no_leading_space_prefix with (b := rev r).
    rewrite <- rev_app_distr, <- Hr, rev_involutive. exact Hn.
  - rewrite rev_involutive. exact Hrn.
Qed.

Lemma lstrip_id (s : str) : no_leading_space s -> lstrip s = s.
Proof. destruct s as [|c s]; simpl; auto. intros ->; reflexivity. Qed.

Lemma strip_trimmed (s : str) : trimmed s -> strip s = s.
Proof.
  intros [H1 H2]. unfold strip, rstrip.
  rewrite (lstrip_id s H1), (lstrip_id (rev s) H2). apply rev_involutive.
Qed.

(** A fenced string is the opening fence, a body, and the closing fence:
    the two fences cannot overlap. *)
Lemma fenced_decompose (s : str) :
  startswith s fence_open = true -> endswith s fence_close = true ->
  exists body, s = fence_open ++ body ++ fence_close.
Proof.
  intros Hs He.
  apply startswith_app in Hs. destruct Hs as [r ->].
  apply endswith_app in He. destruct He as [r' He].
  apply app_eq_app in He. destruct He as [l [[H1 H2] | [H1 H2]]].
  - (* the closing fence would begin inside the opening one *)
    destruct l as [|a [|b [|c [|d l]]]]; try discriminate H2.
    + exists []. simpl in H2. rewrite <- H2. reflexivity.
    + exfalso. inversion H2; subst.
      apply (f_equal (@rev char)) in H1. rewrite rev_app_distr in H1.
      simpl in H1. discriminate H1.
    + exfalso. inversion H2; subst.
      apply (f_equal (@rev char)) in H1. rewrite rev_app_distr in H1.
      simpl in H1. discriminate H1.
    + exfalso. inversion H2; subst.
      apply (f_equal (@rev char)) in H1. rewrite rev_app_distr in H1.
      simpl in H1. discriminate H1.
  - exists l. rewrite H2. reflexivity.
Qed.

(** The slice [[7:-3]] of a fenced string is its body. *)
Lemma py_slice_fenced (body : str) :
  py_slice (fence_open ++ body ++ fence_close) 7 (-3) = body.
Proof.
  unfold py_slice, slice_bound.
  rewrite !length_app.
  change (length fence_open) with 7%nat.
  change (length fence_close) with 3%nat.
  change (7 <? 0)%Z with false. change (-3 <? 0)%Z with true. cbv iota.
  rewrite Z.min_l by lia. rewrite Z.max_r by lia.
  change (Z.to_nat 7) with (length fence_open).
  rewrite skipn_app, skipn_all, Nat.sub_diag. simpl skipn.
  replace (Z.to_nat _) with (length body + 0)%nat by lia.
  rewrite app_nil_l, firstn_app_2. simpl. apply app_nil_r.
Qed.

(** So is what is left when the first seven and the last three characters
    are removed. *)
Lemma spec_slice_fenced (body : str) :
  skipn 7 (firstn (length (fence_open ++ body ++ fence_close) - 3)
             (fence_open ++ body ++ fence_close)) = body.
Proof.
  rewrite !length_app.
  change (length fence_open) with 7%nat.
  change (length fence_close) with 3%nat.
  replace (7 + (length body + 3) - 3)%nat
    with (length (fence_open ++ body) + 0)%nat
    by (rewrite length_app; change (length fence_open) with 7%nat; lia).
  rewrite app_assoc, firstn_app_2. simpl firstn. rewrite app_nil_r.
  change 7%nat with (length fence_open).
  rewrite skipn_app, skipn_all, Nat.sub_diag. reflexivity.
Qed.

(** C2, as amended. For every candidate text [s]: if [s] starts with the
    opening fence and ends with the closing fence, then [s] is the opening
    fence, a body and the closing fence, and the string handed to the JSON
    decoder is that body (the first 7 and the last 3 characters removed)
    with its leading and trailing white space removed as well; a string
    without that pair of fences is handed over unchanged. *)
Theorem unwrap_fence_removes_fence_and_space (s : str) :
  (startswith s fence_open = true -> endswith s fence_close = true ->
   exists body l r,
     s = fence_open ++ body ++ fence_close /\
     body = l ++ unwrap_fence s ++ r /\
     all_space l /\ all_space r /\ trimmed (unwrap_fence s)) /\
  (startswith s fence_open && endswith s fence_close = false ->
   unwrap_fence s = s).
Proof.
  split.
  - intros Hs He.
    destruct (fenced_decompose s Hs He) as [body Hbody]. subst s.
    unfold unwrap_fence. rewrite Hs, He. cbn [andb].
    rewrite py_slice_fenced.
    destruct (strip_spec body) as (l & r & Hb & Hl & Hr & Ht).
    exists body, l, r. auto.
  - intros H. unfold unwrap_fence. rewrite H. reflexivity.
Qed.

(** The fenced example of the specification, and an unfenced text. *)
Lemma unwrap_fence_examples :
  (exists body l r,
     litq "'" "```json{'summary':'x'}```" = fence_open ++ body ++ fence_close /\
     body = l ++ unwrap_fence (litq "'" "```json{'summary':'x'}```") ++ r /\
     all_space l /\ all_space r /\
     trimmed (unwrap_fence (litq "'" "```json{'summary':'x'}```"))) /\
  unwrap_fence (litq "'" "{'summary':'x'}") = litq "'" "{'summary':'x'}".
Proof.
  split.
  - apply (proj1 (unwrap_fence_removes_fence_and_space
                    (litq "'" "```json{'summary':'x'}```"))); reflexivity.
  - apply (proj2 (unwrap_fence_removes_fence_and_space
                    (litq "'" "{'summary':'x'}"))); reflexivity.
Defined.

(** C2, as stated, fails: with a blank after the opening fence and one
    before the closing fence, the code hands the decoder the body without
    the blanks, not the string with exactly 7 and 3 characters removed. *)
Lemma unwrap_fence_removes_more_than_the_fence :
  let s := litq "'" "```json {'summary':'x'} ```" in
  startswith s fence_open = true /\
  endswith s fence_close = true /\
  spec_unwrap_fence s = litq "'" " {'summary':'x'} " /\
  unwrap_fence s = litq "'" "{'summary':'x'}" /\
  unwrap_fence s <> spec_unwrap_fence s.
Proof.
  cbv zeta. repeat split; try reflexivity.
  vm_compute. discriminate.
Qed.

(** With nothing to trim the two agree: the slice is exactly the first 7
    and the last 3 characters removed. *)
Lemma unwrap_fence_exact_when_trimmed (body : str) :
  trimmed body ->
  unwrap_fence (fence_open ++ body ++ fence_close) = body /\
  spec_unwrap_fence (fence_open ++ body ++ fence_close) = body.
Proof.
  intros Ht.
  assert (Hs : startswith (fence_open ++ body ++ fence_close) fence_open = true)
    by (apply startswith_app; eexists; reflexivity).
  assert (He : endswith (fence_open ++ body ++ fence_close) fence_close = true)
    by (apply endswith_app; exists (fence_open ++ body);
        rewrite <- app_assoc; reflexivity).
  unfold unwrap_fence, spec_unwrap_fence. rewrite Hs, He. cbn [andb].
  rewrite py_slice_fenced, spec_slice_fenced, strip_trimmed by exact Ht.
  split; reflexivity.
Qed.

(* ================================================================== *)
(** * The decoder never runs out of fuel *)
(* ================================================================== *)

Lemma skip_ws_length (s : str) : (length (Json.skip_ws s) <= length s)%nat.
Proof.
  induction s as [|c s IH]; simpl; [lia|].
  destruct (Json.is_ws c); simpl; lia.
Qed.

Lemma scan_string_length (n : nat) :
  forall s acc k rest,
    (length s <= n)%nat ->
    Json.scan_string s acc = Some (k, rest) ->
    (length rest < length s)%nat.
Proof.
  induction n as [|n IH]; intros s acc k rest Hn H.
  - destruct s; [discriminate H | simpl in Hn; lia].
  - destruct s as [|c s1]; [discriminate H|].
    cbn [Json.scan_string] in H. cbn [length] in *.
    repeat match type of H with
           | (if ?b then _ else _) = _ => destruct b
           | match ?x with _ => _ end = _ => destruct x; cbn [length] in *
           | Some _ = Some _ => inversion H; subst; clear H; lia
           | None = Some _ => discriminate H
           | Json.scan_string _ _ = Some _ =>
               apply IH in H; [cbn [length] in H; lia | cbn [length]; lia]
           end.
Qed.

Lemma span_digits_length (s : str) :
  (length (snd (Json.span_digits s)) <= length s)%nat.
Proof.
  induction s as [|c s IH]; simpl; [lia|].
  destruct (Json.is_digit c); simpl; [|lia].
  destruct (Json.span_digits s); simpl in *; lia.
Qed.

Lemma scan_int_part_length (s d r : str) :
  Json.scan_int_part s = Some (d, r) -> (length r < length s)%nat.
Proof.
  unfold Json.scan_int_part. destruct s as [|c s']; [discriminate|].
  destruct (c =? 48)%N.
  - intros H; inversion H; subst. simpl; lia.
  - destruct (Json.is_digit c) eqn:Hc; [|discriminate].
    intros H. inversion H as [H1]. clear H.
    pose proof (span_digits_length s') as Hl.
    simpl in H1. rewrite Hc in H1.
    destruct (Json.span_digits s'); inversion H1; subst. simpl in *. lia.
Qed.

Lemma scan_frac_length (s : str) :
  (length (snd (Json.scan_frac s)) <= length s)%nat.
Proof.
  unfold Json.scan_frac. destruct s as [|p [|d s']]; simpl; try lia.
  destruct ((p =? 46)%N && Json.is_digit d); simpl; [|lia].
  pose proof (span_digits_length (d :: s')). simpl in *. lia.
Qed.

Lemma scan_exp_length (s : str) :
  (length (snd (Json.scan_exp s)) <= length s)%nat.
Proof.
  unfold Json.scan_exp. destruct s as [|e s1]; simpl; [lia|].
  destruct ((e =? 101) || (e =? 69))%N; simpl; [|lia].
  assert (H : forall s2, (length s2 <= length s1)%nat ->
            (length (snd (match Json.span_digits s2 with
                          | ([], _) => (@None Z, e :: s1)
                          | (c :: d, rest) =>
                              (Some 0%Z, rest)
                          end)) <= S (length s1))%nat).
  { intros s2 H2. pose proof (span_digits_length s2).
    destruct (Json.span_digits s2) as [[|c d] rest]; simpl in *; lia. }
  destruct s1 as [|sg s1'].
  - simpl. lia.
  - destruct (sg =? 45)%N; [| destruct (sg =? 43)%N].
    + pose proof (span_digits_length s1').
      destruct (Json.span_digits s1') as [[|c d] rest]; simpl in *; lia.
    + pose proof (span_digits_length s1').
      destruct (Json.span_digits s1') as [[|c d] rest]; simpl in *; lia.
    + pose proof (span_digits_length (sg :: s1')).
      destruct (Json.span_digits (sg :: s1')) as [[|c d] rest]; simpl in *; lia.
Qed.

Lemma scan_number_length (s : str) (v : value) (r : str) :
  Json.scan_number s = Some (v, r) -> (length r < length s)%nat.
Proof.
  unfold Json.scan_number.
  set (p := match s with
            | c :: s' => if (c =? 45)%N then (true, s') else (false, s)
            | [] => (false, s)
            end).
  assert (Hp : (length (snd p) <= length s)%nat).
  { subst p. destruct s as [|c s']; simpl; [lia|].
    destruct (c =? 45)%N; simpl; lia. }
  destruct p as [neg s1]. simpl in Hp.
  destruct (Json.scan_int_part s1) as [[int_digits s2]|] eqn:Hi; [|discriminate].
  apply scan_int_part_length in Hi.
  pose proof (scan_frac_length s2) as Hf.
  destruct (Json.scan_frac s2) as [frac s3]. simpl in Hf.
  pose proof (scan_exp_length s3) as He.
  destruct (Json.scan_exp s3) as [ex s4]. simpl in He.
  destruct frac; destruct ex; intros H; inversion H; subst; lia.
Qed.

Lemma strip_prefix_length (p s r : str) :
  Json.strip_prefix p s = Some r -> (length r + length p = length s)%nat.
Proof.
  unfold Json.strip_prefix. destruct (startswith s p) eqn:E; [|discriminate].
  intros H; inversion H; subst. apply startswith_app in E.
  destruct E as [r ->]. rewrite skipn_app, skipn_all, Nat.sub_diag.
  simpl. rewrite length_app. lia.
Qed.

Lemma scan_atom_length (s : str) :
  Json.scan_atom s <> Json.Exhausted /\
  forall v rest, Json.scan_atom s = Json.Scanned v rest ->
                 (length rest < length s)%nat.
Proof.
  unfold Json.scan_atom.
  repeat match goal with
         | |- context [Json.strip_prefix ?p s] =>
             let E := fresh "E" in
             destruct (Json.strip_prefix p s) eqn:E;
             [apply strip_prefix_length in E; vm_compute (length p) in E;
              split; [discriminate | intros v rest H; inversion H; subst; lia]
             | clear E]
         end.
  destruct (Json.scan_number s) as [[v r]|] eqn:E.
  - apply scan_number_length in E.
    split; [discriminate | intros v' rest H; inversion H; subst; lia].
  - split; [discriminate | intros v' rest H; discriminate H].
Qed.

Lemma scan_once_S (fuel : nat) (s : str) :
  Json.scan_once (S fuel) s =
  match s with
  | [] => Json.Malformed
  | c :: s' =>
      if (c =? 34)%N then
        match Json.scan_string s' [] with
        | Some (k, rest) => Json.Scanned (VStr k) rest
        | None => Json.Malformed
        end
      else if (c =? 123)%N then
        match Json.skip_ws s' with
        | [] => Json.Malformed
        | c1 :: s2 =>
            if (c1 =? 125)%N then Json.Scanned (VDict []) s2
            else Json.scan_members fuel (c1 :: s2) []
        end
      else if (c =? 91)%N then
        match Json.skip_ws s' with
        | [] => Json.Malformed
        | c1 :: s2 =>
            if (c1 =? 93)%N then Json.Scanned (VList []) s2
            else Json.scan_items fuel (c1 :: s2) []
        end
      else Json.scan_atom s
  end.
Proof. reflexivity. Qed.

Lemma scan_items_S (fuel : nat) (s : str) (acc : list value) :
  Json.scan_items (S fuel) s acc =
  match Json.scan_once fuel s with
  | Json.Scanned v rest =>
      match Json.skip_ws rest with
      | [] => Json.Malformed
      | c :: rest' =>
          if (c =? 93)%N then Json.Scanned (VList (rev (v :: acc))) rest'
          else if (c =? 44)%N
               then Json.scan_items fuel (Json.skip_ws rest') (v :: acc)
               else Json.Malformed
      end
  | r => r
  end.
Proof. reflexivity. Qed.

Lemma scan_members_S (fuel : nat) (s : str) (acc : list (str * value)) :
  Json.scan_members (S fuel) s acc =
  match s with
  | [] => Json.Malformed
  | q :: s1 =>
      if negb (q =? 34)%N then Json.Malformed
      else
        match Json.scan_string s1 [] with
        | None => Json.Malformed
        | Some (key, s2) =>
            match Json.skip_ws s2 with
            | [] => Json.Malformed
            | colon :: s3 =>
                if negb (colon =? 58)%N then Json.Malformed
                else
                  match Json.scan_once fuel (Json.skip_ws s3) with
                  | Json.Scanned v rest =>
                      match Json.skip_ws rest with
                      | [] => Json.Malformed
                      | c :: rest' =>
                          if (c =? 125)%N
                          then Json.Scanned
                                 (VDict (dict_of_pairs (rev ((key, v) :: acc))))
                                 rest'
                          else if (c =? 44)%N
                               then Json.scan_members fuel (Json.skip_ws rest')
                                      ((key, v) :: acc)
                               else Json.Malformed
                      end
                  | r => r
                  end
            end
        end
  end.
Proof. reflexivity. Qed.

(** With fuel for twice the length of the text, the decoder ends by
    itself, and a value it reads takes at least one character. *)
Lemma scan_enough_fuel (fuel : nat) :
  (forall s, (2 * length s + 1 <= fuel)%nat ->
     Json.scan_once fuel s <> Json.Exhausted /\
     forall v rest, Json.scan_once fuel s = Json.Scanned v rest ->
                    (length rest < length s)%nat)
  /\ (forall s acc, (2 * length s + 2 <= fuel)%nat ->
        Json.scan_items fuel s acc <> Json.Exhausted /\
        forall v rest, Json.scan_items fuel s acc = Json.Scanned v rest ->
                       (length rest < length s)%nat)
  /\ (forall s acc, (2 * length s + 2 <= fuel)%nat ->
        Json.scan_members fuel s acc <> Json.Exhausted /\
        forall v rest, Json.scan_members fuel s acc = Json.Scanned v rest ->
                       (length rest < length s)%nat).
Proof.
  induction fuel as [|fuel (IHonce & IHitems & IHmembers)].
  - repeat split; intros; lia.
  - split; [| split].
    + (* one value *)
      intros s Hf. rewrite scan_once_S.
      destruct s as [|c s']; [split; [discriminate | intros; discriminate]|].
      cbn [length] in Hf.
      destruct (c =? 34)%N.
      { destruct (Json.scan_string s' []) as [[k rest]|] eqn:E.
        - apply scan_string_length with (n := length s') in E; [|lia].
          split; [discriminate|]. intros v r H; inversion H; subst.
          cbn [length]; lia.
        - split; [discriminate | intros; discriminate]. }
      destruct (c =? 123)%N.
      { pose proof (skip_ws_length s') as Hw.
        destruct (Json.skip_ws s') as [|c1 s2];
          [split; [discriminate | intros; discriminate]|].
        cbn [length] in Hw.
        destruct (c1 =? 125)%N.
        - split; [discriminate|]. intros v r H; inversion H; subst.
          cbn [length]; lia.
        - destruct (IHmembers (c1 :: s2) []) as [H1 H2];
            [cbn [length]; lia|].
          split; [exact H1|]. intros v r H. apply H2 in H.
          cbn [length] in *; lia. }
      destruct (c =? 91)%N.
      { pose proof (skip_ws_length s') as Hw.
        destruct (Json.skip_ws s') as [|c1 s2];
          [split; [discriminate | intros; discriminate]|].
        cbn [length] in Hw.
        destruct (c1 =? 93)%N.
        - split; [discriminate|]. intros v r H; inversion H; subst.
          cbn [length]; lia.
        - destruct (IHitems (c1 :: s2) []) as [H1 H2];
            [cbn [length]; lia|].
          split; [exact H1|]. intros v r H. apply H2 in H.
          cbn [length] in *; lia. }
      apply scan_atom_length.
    + (* the items of an array *)
      intros s acc Hf. rewrite scan_items_S.
      destruct (IHonce s) as [H1 H2]; [lia|].
      destruct (Json.scan_once fuel s) as [v rest| |] eqn:E;
        [| split; [discriminate | intros; discriminate] | congruence].
      specialize (H2 v rest eq_refl).
      pose proof (skip_ws_length rest) as Hw.
      destruct (Json.skip_ws rest) as [|c rest'];
        [split; [discriminate | intros; discriminate]|].
      cbn [length] in Hw.
      destruct (c =? 93)%N.
      { split; [discriminate|]. intros v' r H; inversion H; subst. lia. }
      destruct (c =? 44)%N;
        [| split; [discriminate | intros; discriminate]].
      pose proof (skip_ws_length rest') as Hw'.
      destruct (IHitems (Json.skip_ws rest') (v :: acc)) as [H3 H4]; [lia|].
      split; [exact H3|]. intros v' r H. apply H4 in H. lia.
    + (* the members of an object *)
      intros s acc Hf. rewrite scan_members_S.
      destruct s as [|q s1]; [split; [discriminate | intros; discriminate]|].
      cbn [length] in Hf.
      destruct (negb (q =? 34)%N);
        [split; [discriminate | intros; discriminate]|].
      destruct (Json.scan_string s1 []) as [[key s2]|] eqn:Ek;
        [| split; [discriminate | intros; discriminate]].
      apply scan_string_length with (n := length s1) in Ek; [|lia].
      pose proof (skip_ws_length s2) as Hw2.
      destruct (Json.skip_ws s2) as [|colon s3];
        [split; [discriminate | intros; discriminate]|].
      cbn [length] in Hw2.
      destruct (negb (colon =? 58)%N);
        [split; [discriminate | intros; discriminate]|].
      pose proof (skip_ws_length s3) as Hw3.
      destruct (IHonce (Json.skip_ws s3)) as [H1 H2]; [lia|].
      destruct (Json.scan_once fuel (Json.skip_ws s3)) as [v rest| |] eqn:E;
        [| split; [discriminate | intros; discriminate] | congruence].
      specialize (H2 v rest eq_refl).
      pose proof (skip_ws_length rest) as Hw.
      destruct (Json.skip_ws rest) as [|c rest'];
        [split; [discriminate | intros; discriminate]|].
      cbn [length] in Hw.
      destruct (c =? 125)%N.
      { split; [discriminate|]. intros v' r H; inversion H; subst.
        cbn [length]; lia. }
      destruct (c =? 44)%N;
        [| split; [discriminate | intros; discriminate]].
      pose proof (skip_ws_length rest') as Hw'.
      destruct (IHmembers (Json.skip_ws rest') ((key, v) :: acc)) as [H3 H4];
        [lia|].
      split; [exact H3|]. intros v' r H. apply H4 in H.
      cbn [length]; lia.
Qed.

(** [Json.loads] never gives up for want of fuel: a text it rejects is
    malformed. *)
Lemma loads_fuel_suffices (s : str) :
  Json.scan_once (2 * length s + 2) (Json.skip_ws s) <> Json.Exhausted.
Proof.
  apply (proj1 (scan_enough_fuel (2 * length s + 2))).
  pose proof (skip_ws_length s). lia.
Qed.

(* ================================================================== *)
(** * The summarization client *)
(* ================================================================== *)

Arguments lit : simpl never.
Arguments litq : simpl never.

Ltac find_match :=
  repeat match goal with
         | H : match ?x with _ => _ end = Some _ |- _ =>
             destruct x eqn:?; try discriminate H
         end.

Lemma dict_lookup_truthy (d : list (str * value)) (k : str) (v : value) :
  dict_lookup d k = Some v -> truthy (VDict d) = true.
Proof. destruct d; [discriminate | reflexivity]. Qed.

Section Client.

Variable key : str.
Variable loads : str -> outcome value.
Variable net : list request -> request -> outcome response.

Lemma raise_for_status_passes (r : response) (w : world) :
  status_passes r -> raise_for_status r w = (Ret tt, w).
Proof.
  unfold status_passes, raise_for_status. intros H.
  destruct (400 <=? status_code r)%Z eqn:E1;
    destruct (status_code r <? 500)%Z eqn:E2;
    destruct (500 <=? status_code r)%Z eqn:E3;
    destruct (status_code r <? 600)%Z eqn:E4; simpl; try reflexivity; lia.
Qed.

(** When the path to the text is there, the guard of line 101 holds and
    line 102 reads the text. *)
Lemma summarize_reply_text (r : response) (result text_value : value)
  (w : world) :
  status_passes r ->
  loads (text r) = Ret result ->
  spec_candidate_text result = Some text_value ->
  summarize_reply loads r w =
    match text_value with
    | VStr s => (loads (unwrap_fence s), w)
    | _ => (Raise AttributeError, w)
    end.
Proof.
  intros Hst Hres Hpath.
  unfold summarize_reply, bind at 1.
  rewrite (raise_for_status_passes w Hst).
  unfold response_json, bind at 1. rewrite Hres. unfold ret at 1.
  unfold spec_candidate_text in Hpath. find_match. subst.
  unfold has_parts, first_content, first_candidate, py_and, py_get,
    py_getitem, bind, ret, raise, lift.
  repeat (cbn;
          repeat match goal with
                 | H : dict_lookup _ _ = _ |- _ => rewrite H
                 | H : dict_lookup ?d _ = Some _
                   |- context [truthy (VDict ?d)] =>
                     rewrite (dict_lookup_truthy _ _ H)
                 end).
  destruct text_value; reflexivity.
Qed.

(** Once the network has answered, the rest of the [try] runs in the world
    where the first message is shown and the request is sent. *)
Lemma summarize_document_reply (t : str) (r : response) (w : world) :
  net (sent w) (summary_request key t) = Ret r ->
  summarize_document key loads net t w =
    catch (summarize_reply loads r) (summarize_except (Some r))
          (after_request key t w []).
Proof.
  intros H. unfold summarize_document, bind, emit, try_let, post. cbn.
  rewrite H. reflexivity.
Qed.

Lemma summarize_document_no_reply (t : str) (e : exn) (w : world) :
  net (sent w) (summary_request key t) = Raise e ->
  summarize_document key loads net t w =
    summarize_except None e (after_request key t w []).
Proof.
  intros H. unfold summarize_document, bind, emit, try_let, post. cbn.
  rewrite H. reflexivity.
Qed.

Lemma after_request_snoc (t : str) (w : world) (evs : list event) (e : event) :
  mkWorld (ui (after_request key t w evs) ++ [e])
          (sent (after_request key t w evs))
          (session_state (after_request key t w evs))
  = after_request key t w (evs ++ [e]).
Proof.
  unfold after_request. cbn. rewrite <- app_assoc. reflexivity.
Qed.

(** C7. For every candidate text that [json.loads] rejects (after the
    fence is unwrapped), [summarize_document] reports the decoding error,
    shows the raw text of the response for diagnosis, and returns [None]:
    no summary is produced. *)
Theorem undecodable_text_is_a_decode_error (t : str) (r : response)
  (result : value) (s : str) (w : world) :
  net (sent w) (summary_request key t) = Ret r ->
  status_passes r ->
  loads (text r) = Ret result ->
  spec_candidate_text result = Some (VStr s) ->
  loads (unwrap_fence s) = Raise JSONDecodeError ->
  summarize_document key loads net t w =
    (Ret VNone,
     after_request key t w [decode_error JSONDecodeError; st_text (text r)]).
Proof.
  intros Hnet Hst Hres Hpath Hbad.
  rewrite summarize_document_reply with (r := r) by exact Hnet. unfold catch.
  rewrite summarize_reply_text with (result := result) (text_value := VStr s)
    by assumption.
  rewrite Hbad.
  unfold summarize_except. cbn [is_RequestException is_JSONDecodeError].
  unfold bind, emit, ret. rewrite !after_request_snoc. reflexivity.
Qed.

(** ** Requests: only [post] sends one *)

Lemma keeps_ret (A : Type) (a : A) : keeps_sent (ret a).
Proof. intros w; reflexivity. Qed.

Lemma keeps_raise (A : Type) (e : exn) : keeps_sent (@raise A e).
Proof. intros w; reflexivity. Qed.

Lemma keeps_lift (A : Type) (o : outcome A) : keeps_sent (lift o).
Proof. intros w; reflexivity. Qed.

Lemma keeps_emit (e : event) : keeps_sent (emit e).
Proof. intros w; reflexivity. Qed.

Lemma keeps_bind (A B : Type) (m : M A) (k : A -> M B) :
  keeps_sent m -> (forall a, keeps_sent (k a)) -> keeps_sent (bind m k).
Proof.
  intros Hm Hk w. unfold bind. specialize (Hm w).
  destruct (m w) as [[a|e] w']; simpl in *.
  - rewrite Hk. exact Hm.
  - exact Hm.
Qed.

Lemma keeps_catch (A : Type) (m : M A) (h : exn -> M A) :
  keeps_sent m -> (forall e, keeps_sent (h e)) -> keeps_sent (catch m h).
Proof.
  intros Hm Hh w. unfold catch. specialize (Hm w).
  destruct (m w) as [[a|e] w']; simpl in *.
  - exact Hm.
  - rewrite Hh. exact Hm.
Qed.

Lemma keeps_py_get (o : value) (k : str) (d : value) :
  keeps_sent (py_get o k d).
Proof.
  unfold py_get. destruct o; try apply keeps_raise.
  destruct (dict_lookup d0 k); apply keeps_ret.
Qed.

Lemma keeps_py_getitem (o k : value) : keeps_sent (py_getitem o k).
Proof.
  unfold py_getitem.
  repeat match goal with
         | |- keeps_sent (ret _) => apply keeps_ret
         | |- keeps_sent (raise _) => apply keeps_raise
         | |- keeps_sent (match ?x with _ => _ end) => destruct x
         end.
Qed.

Lemma keeps_py_and (a b : M value) :
  keeps_sent a -> keeps_sent b -> keeps_sent (py_and a b).
Proof.
  intros Ha Hb. unfold py_and. apply keeps_bind; [exact Ha|].
  intros v. destruct (truthy v); [exact Hb | apply keeps_ret].
Qed.

Lemma keeps_raise_for_status (r : response) : keeps_sent (raise_for_status r).
Proof.
  unfold raise_for_status.
  repeat match goal with
         | |- keeps_sent (ret _) => apply keeps_ret
         | |- keeps_sent (raise _) => apply keeps_raise
         | |- keeps_sent (if ?x then _ else _) => destruct x
         end.
Qed.

Ltac keeps :=
  repeat first
    [ apply keeps_ret | apply keeps_raise | apply keeps_lift
    | apply keeps_emit | apply keeps_py_get | apply keeps_py_getitem
    | apply keeps_raise_for_status
    | apply keeps_py_and
    | apply keeps_bind; [| intros ?]
    | match goal with
      | |- keeps_sent (if ?b then _ else _) => destruct b
      | |- keeps_sent (match ?x with _ => _ end) => destruct x
      end ].

Lemma keeps_summarize_reply (r : response) :
  keeps_sent (summarize_reply loads r).
Proof.
  unfold summarize_reply, response_json, has_parts, first_content,
    first_candidate.
  keeps.
Qed.

Lemma keeps_summarize_except (o : option response) (e : exn) :
  keeps_sent (summarize_except o e).
Proof. unfold summarize_except. keeps. Qed.

(** Whatever the network answers and whatever the reply holds,
    [summarize_document] sends exactly one request. *)
Lemma summarize_document_sends_once (t : str) (w : world) :
  sent (snd (summarize_document key loads net t w))
  = sent w ++ [summary_request key t].
Proof.
  destruct (net (sent w) (summary_request key t)) as [r|e] eqn:Hnet.
  - rewrite summarize_document_reply with (r := r) by exact Hnet.
    assert (K : keeps_sent (catch (summarize_reply loads r)
                                  (summarize_except (Some r))))
      by (apply keeps_catch;
          [apply keeps_summarize_reply | intros; apply keeps_summarize_except]).
    rewrite K. reflexivity.
  - rewrite summarize_document_no_reply with (e := e) by exact Hnet.
    rewrite keeps_summarize_except. reflexivity.
Qed.

(** ** The button *)

Lemma dict_lookup_set (d : list (str * value)) (k : str) (v : value) :
  dict_lookup (dict_set d k v) k = Some v.
Proof.
  induction d as [|[k' v'] d IH]; simpl.
  - rewrite str_eqb_refl. reflexivity.
  - destruct (str_eqb k' k) eqn:E; simpl; rewrite E; auto.
Qed.

(** A press of the button, up to the branch on the truth value of the
    result. *)
Lemma on_summarize_step (t : str) (w : world) (v : value)
  (evs : list event) :
  truthy (VStr t) = true ->
  summarize_document key loads net t (cleared w)
  = (Ret v, after_request key t (cleared w) evs) ->
  on_summarize key loads net t w =
    (if truthy v then render_summary v else emit failure_message)
      (after_run key t w evs v).
Proof.
  intros Ht Hsum. unfold on_summarize. rewrite Ht.
  unfold bind at 1. unfold emit at 1.
  unfold bind at 1. unfold session_mem at 1. cbn [ui sent session_state].
  unfold bind at 1.
  assert (Hclear :
    (if dict_mem (session_state w) (lit "summary_data")
     then session_del (lit "summary_data") else ret tt)
      (mkWorld (ui w ++ [summarizing]) (sent w) (session_state w))
    = (Ret tt, cleared w)).
  { unfold cleared.
    destruct (dict_mem (session_state w) (lit "summary_data")); reflexivity. }
  fold summarizing. rewrite Hclear.
  unfold bind at 1. rewrite Hsum.
  unfold bind at 1. unfold session_set at 1.
  replace (mkWorld (ui (after_request key t (cleared w) evs))
             (sent (after_request key t (cleared w) evs))
             (dict_set (session_state (after_request key t (cleared w) evs))
                (lit "summary_data") v))
    with (after_run key t w evs v).
  - reflexivity.
  - unfold after_run, after_request, cleared, session_after_run. cbn.
    rewrite <- app_assoc. reflexivity.
Qed.

Lemma on_summarize_failure (t : str) (w : world) (v : value)
  (evs : list event) :
  truthy (VStr t) = true ->
  summarize_document key loads net t (cleared w)
  = (Ret v, after_request key t (cleared w) evs) ->
  truthy v = false ->
  on_summarize key loads net t w =
    (Ret tt, after_run key t w (evs ++ [failure_message]) v).
Proof.
  intros Ht Hsum Hv.
  rewrite on_summarize_step with (v := v) (evs := evs) by assumption.
  rewrite Hv. unfold emit, after_run. cbn.
  rewrite <- app_assoc. reflexivity.
Qed.

Lemma raise_for_status_rejects (r : response) (w : world) :
  (400 <= status_code r < 600)%Z ->
  raise_for_status r w = (Raise (http_error r), w).
Proof.
  intros H. unfold raise_for_status, http_error, error_kind.
  destruct (400 <=? status_code r)%Z eqn:E1; [|lia].
  destruct (status_code r <? 500)%Z eqn:E2; simpl; [reflexivity|].
  destruct (500 <=? status_code r)%Z eqn:E3; [|lia].
  destruct (status_code r <? 600)%Z eqn:E4; [|lia].
  reflexivity.
Qed.

Lemma summarize_document_http_error (t : str) (r : response) (w : world) :
  net (sent w) (summary_request key t) = Ret r ->
  (400 <= status_code r < 600)%Z ->
  summarize_document key loads net t w =
    (Ret VNone, after_request key t w [network_or_api_error (http_error r)]).
Proof.
  intros Hnet Hst.
  rewrite summarize_document_reply with (r := r) by exact Hnet.
  unfold catch, summarize_reply. unfold bind at 1.
  rewrite raise_for_status_rejects by exact Hst.
  unfold summarize_except, http_error. cbn [is_RequestException].
  unfold bind, emit, ret. rewrite !after_request_snoc. reflexivity.
Qed.

(** C5, as amended. On a status that [raise_for_status] rejects (400 to
    599), summarization fails with the report of a network or API error
    whose message carries the status, the reason phrase and the URL (not
    the body of the response); it returns [None], which is what the
    session slot then holds (no summary), the failure message is shown,
    and exactly one request has been sent: nothing is retried. *)
Theorem http_error_is_reported_and_not_retried (t : str) (r : response)
  (w : world) :
  truthy (VStr t) = true ->
  net (sent w) (summary_request key t) = Ret r ->
  (400 <= status_code r < 600)%Z ->
  summarize_document key loads net t w =
    (Ret VNone, after_request key t w [network_or_api_error (http_error r)])
  /\ http_error r =
       HTTPError (str_of_Z (status_code r) ++ lit " " ++ error_kind r
                  ++ lit " Error: " ++ reason r ++ lit " for url: " ++ url r)
  /\ on_summarize key loads net t w =
       (Ret tt,
        after_run key t w
          [network_or_api_error (http_error r); failure_message] VNone)
  /\ dict_lookup (session_state (after_run key t w
          [network_or_api_error (http_error r); failure_message] VNone))
       (lit "summary_data") = Some VNone
  /\ sent (after_run key t w
          [network_or_api_error (http_error r); failure_message] VNone)
     = sent w ++ [summary_request key t].
Proof.
  intros Ht Hnet Hst. repeat split.
  - apply summarize_document_http_error; assumption.
  - apply on_summarize_failure with (evs := [network_or_api_error (http_error r)]);
      auto.
    apply summarize_document_http_error; assumption.
  - apply dict_lookup_set.
Qed.

(** A decoded value that is falsy is stored, and the failure message is
    shown in place of a report. *)
Lemma falsy_result_shows_failure (t : str) (r : response)
  (result : value) (s : str) (v : value) (w : world) :
  truthy (VStr t) = true ->
  net (sent w) (summary_request key t) = Ret r ->
  status_passes r ->
  loads (text r) = Ret result ->
  spec_candidate_text result = Some (VStr s) ->
  loads (unwrap_fence s) = Ret v ->
  truthy v = false ->
  summarize_document key loads net t w = (Ret v, after_request key t w [])
  /\ on_summarize key loads net t w =
       (Ret tt, after_run key t w [failure_message] v).
Proof.
  intros Ht Hnet Hst Hres Hpath Hv Hfalse.
  assert (Hsum : forall w', sent w' = sent w ->
            summarize_document key loads net t w'
            = (Ret v, after_request key t w' [])).
  { intros w' Hw'.
    rewrite summarize_document_reply with (r := r)
      by (rewrite Hw'; exact Hnet).
    unfold catch.
    rewrite summarize_reply_text with (result := result) (text_value := VStr s)
      by assumption.
    rewrite Hv. reflexivity. }
  split.
  - apply Hsum; reflexivity.
  - apply on_summarize_failure with (evs := []); auto.
Qed.

(** A text that decodes is what [summarize_document] returns, with nothing
    shown but the first message. *)
Lemma summarize_document_decoded (t : str) (r : response)
  (result : value) (s : str) (v : value) (w : world) :
  net (sent w) (summary_request key t) = Ret r ->
  status_passes r ->
  loads (text r) = Ret result ->
  spec_candidate_text result = Some (VStr s) ->
  loads (unwrap_fence s) = Ret v ->
  summarize_document key loads net t w = (Ret v, after_request key t w []).
Proof.
  intros Hnet Hst Hres Hpath Hv.
  rewrite summarize_document_reply with (r := r) by exact Hnet.
  unfold catch.
  rewrite summarize_reply_text with (result := result) (text_value := VStr s)
    by assumption.
  rewrite Hv. reflexivity.
Qed.

Lemma on_summarize_report (t : str) (w : world) (v : value)
  (evs : list event) :
  truthy (VStr t) = true ->
  summarize_document key loads net t (cleared w)
  = (Ret v, after_request key t (cleared w) []) ->
  truthy v = true ->
  (forall w', render_summary v w' = (Ret tt, add_ui w' evs)) ->
  on_summarize key loads net t w = (Ret tt, after_run key t w evs v).
Proof.
  intros Ht Hsum Hv Hrender.
  rewrite on_summarize_step with (v := v) (evs := []) by assumption.
  rewrite Hv, Hrender. unfold add_ui, after_run. cbn.
  rewrite <- app_assoc. reflexivity.
Qed.

(** The cases the guard of line 101 covers: without candidates, content or
    parts, the error is shown with the raw envelope, and [None] is
    returned. *)
Lemma missing_parts_is_an_empty_response (t : str) (r : response)
  (result : value) (w : world) :
  net (sent w) (summary_request key t) = Ret r ->
  status_passes r ->
  loads (text r) = Ret result ->
  spec_parts_absent result ->
  summarize_document key loads net t w =
    (Ret VNone, after_request key t w [no_valid_response; st_json result]).
Proof.
  intros Hnet Hst Hres (d & -> & Habs).
  rewrite summarize_document_reply with (r := r) by exact Hnet.
  unfold catch, summarize_reply. unfold bind at 1.
  rewrite (raise_for_status_passes _ Hst).
  unfold response_json, bind at 1. rewrite Hres. unfold ret at 1.
  assert (Hguard : forall w', exists ok,
             has_parts (VDict d) w' = (Ret ok, w') /\ truthy ok = false).
  { intros w'.
    unfold has_parts, first_content, first_candidate, py_and, py_get,
      py_getitem, bind, ret, raise.
    destruct Habs as [H | (c0 & cs & H & [H0 | (ct & H0 & H1)])];
      rewrite ?H; cbn -[dict_lookup]; rewrite ?H0; cbn -[dict_lookup].
    - exists VNone; auto.
    - exists VNone; auto.
    - destruct ct as [|p ct'] eqn:Ect.
      + exists (VDict []); auto.
      + cbn -[dict_lookup]. rewrite ?H, ?H0. cbn -[dict_lookup].
        rewrite H1. exists VNone; auto. }
  destruct (Hguard (after_request key t w [])) as (ok & Hok & Hfalse).
  unfold bind at 1. rewrite Hok, Hfalse.
  unfold bind, emit, ret. fold no_valid_response.
  rewrite !after_request_snoc. reflexivity.
Qed.

End Client.

(* ================================================================== *)
(** * The report *)
(* ================================================================== *)

Lemma render_summary_without_details (d : list (str * value)) (w : world) :
  dict_lookup d (lit "coverages") = None ->
  dict_lookup d (lit "exclusions") = None ->
  dict_lookup d (lit "policyDetails") = None ->
  render_summary (VDict d) w =
    (Ret tt, add_ui w (report_without_details (get_or d (lit "summary") NA))).
Proof.
  intros Hc He Hp.
  unfold render_summary, bind, py_get, emit, ret, get_or.
  rewrite Hc, He, Hp.
  destruct (dict_lookup d (lit "summary")); cbn;
    unfold add_ui, report_without_details;
    rewrite <- !app_assoc; reflexivity.
Qed.

Lemma policy_table_reads_defaults (pd : list (str * value)) (w : world) :
  policy_table (VDict pd) w =
    (Ret tt,
     add_ui w
       [policy_table_markdown
          (get_or pd (lit "policyNumber") NA)
          (get_or pd (lit "policyHolder") NA)
          (get_or pd (lit "effectiveDate") NA)
          (get_or pd (lit "expirationDate") NA)
          (get_or pd (lit "premium") NA)]).
Proof.
  unfold policy_table, bind, py_get, emit, ret, get_or.
  destruct (dict_lookup pd (lit "policyNumber"));
    destruct (dict_lookup pd (lit "policyHolder"));
    destruct (dict_lookup pd (lit "effectiveDate"));
    destruct (dict_lookup pd (lit "expirationDate"));
    destruct (dict_lookup pd (lit "premium")); reflexivity.
Qed.

(** C1, as amended. A decoded reply is kept as decoded, with no member
    added: the text of the example decodes to the object with the one
    member [summary], which is what the session then holds. Defaults are
    substituted when the report reads a member: for a result without
    coverages, exclusions and policy details the three lines saying that
    none was found are shown, with the sentinel for a missing summary; in
    the policy table each of the five strings that is missing is shown as
    the sentinel. *)
Theorem defaults_are_substituted_when_displayed :
  (forall key net t w,
     truthy (VStr t) = true ->
     net (sent w) (summary_request key t)
     = Ret (reply 200 (envelope_of summary_ok_escaped)) ->
     on_summarize key Json.loads net t w =
       (Ret tt,
        after_run key t w (report_without_details (VStr (lit "ok")))
          summary_ok))
  /\ (forall d w,
        dict_lookup d (lit "coverages") = None ->
        dict_lookup d (lit "exclusions") = None ->
        dict_lookup d (lit "policyDetails") = None ->
        render_summary (VDict d) w =
          (Ret tt,
           add_ui w (report_without_details (get_or d (lit "summary") NA))))
  /\ (forall pd w,
        policy_table (VDict pd) w =
          (Ret tt,
           add_ui w
             [policy_table_markdown
                (get_or pd (lit "policyNumber") NA)
                (get_or pd (lit "policyHolder") NA)
                (get_or pd (lit "effectiveDate") NA)
                (get_or pd (lit "expirationDate") NA)
                (get_or pd (lit "premium") NA)])).
Proof.
  split; [| split].
  - intros key net t w Ht Hnet.
    apply on_summarize_report; auto.
    + eapply summarize_document_decoded with (s := litq "'" "{'summary':'ok'}").
      * exact Hnet.
      * left; reflexivity.
      * vm_compute; reflexivity.
      * vm_compute; reflexivity.
      * vm_compute; reflexivity.
    + intros w'.
      apply (render_summary_without_details [(lit "summary", VStr (lit "ok"))]);
        reflexivity.
  - exact render_summary_without_details.
  - exact policy_table_reads_defaults.
Qed.

(** The example of the specification, end to end in a fresh world, and a
    policy object that has a number only. *)
Lemma summary_only_reply_displayed :
  on_summarize (lit "k") Json.loads
    (always (reply 200 (envelope_of summary_ok_escaped))) (lit "policy") fresh
  = (Ret tt,
     after_run (lit "k") (lit "policy") fresh
       (report_without_details (VStr (lit "ok"))) summary_ok)
  /\ policy_table (VDict [(lit "policyNumber", VStr (lit "123"))]) fresh
     = (Ret tt,
        add_ui fresh
          [policy_table_markdown (VStr (lit "123")) NA NA NA NA]).
Proof.
  split.
  - apply (proj1 defaults_are_substituted_when_displayed); reflexivity.
  - apply (proj2 (proj2 defaults_are_substituted_when_displayed)).
Defined.

(** C1, as stated, fails: the text of the example decodes to an object
    that has the member [summary] and no other, so the result is not the
    populated one, and reading its coverages gives [None], not a list. *)
Lemma summary_only_reply_is_not_filled :
  Json.loads (litq "'" "{'summary':'ok'}") = Ret summary_ok
  /\ fst (summarize_document (lit "k") Json.loads
            (always (reply 200 (envelope_of summary_ok_escaped)))
            (lit "policy") fresh)
     = Ret summary_ok
  /\ ~ spec_defaults_filled summary_ok
  /\ py_get summary_ok (lit "coverages") VNone fresh = (Ret VNone, fresh).
Proof.
  repeat split; try (vm_compute; reflexivity).
  intros (d & pd & Hd & Hc & _). inversion Hd; subst d.
  vm_compute in Hc. discriminate Hc.
Qed.

(* ================================================================== *)
(** * The claims on concrete replies *)
(* ================================================================== *)

(** A server error, end to end in a fresh world. *)
Lemma server_error_example :
  summarize_document (lit "k") Json.loads
    (always (server_error (lit "quota exceeded"))) (lit "policy") fresh
  = (Ret VNone,
     after_request (lit "k") (lit "policy") fresh
       [network_or_api_error (http_error (server_error (lit "quota exceeded")))])
  /\ http_error (server_error (lit "quota exceeded"))
     = HTTPError
         (str_of_Z 500 ++ lit " " ++ lit "Server" ++ lit " Error: "
          ++ lit "Internal Server Error" ++ lit " for url: "
          ++ lit "https://generativelanguage.googleapis.com/")
  /\ on_summarize (lit "k") Json.loads
       (always (server_error (lit "quota exceeded"))) (lit "policy") fresh
     = (Ret tt,
        after_run (lit "k") (lit "policy") fresh
          [network_or_api_error (http_error (server_error (lit "quota exceeded")));
           failure_message] VNone)
  /\ dict_lookup
       (session_state
          (after_run (lit "k") (lit "policy") fresh
             [network_or_api_error (http_error (server_error (lit "quota exceeded")));
              failure_message] VNone))
       (lit "summary_data") = Some VNone
  /\ sent
       (after_run (lit "k") (lit "policy") fresh
          [network_or_api_error (http_error (server_error (lit "quota exceeded")));
           failure_message] VNone)
     = sent fresh ++ [summary_request (lit "k") (lit "policy")].
Proof.
  apply (@http_error_is_reported_and_not_retried (lit "k") Json.loads
           (always (server_error (lit "quota exceeded"))) (lit "policy")
           (server_error (lit "quota exceeded")) fresh).
  - reflexivity.
  - reflexivity.
  - simpl. lia.
Defined.

(** C5, as stated, fails: two server errors that differ in their body, and
    in nothing else, leave the same report, the same return value and the
    same session behind, so the failure does not carry the body. *)
Lemma http_error_report_drops_the_body :
  text (server_error (lit "quota exceeded"))
  <> text (server_error (lit "backend unavailable"))
  /\ summarize_document (lit "k") Json.loads
       (always (server_error (lit "quota exceeded"))) (lit "policy") fresh
     = summarize_document (lit "k") Json.loads
         (always (server_error (lit "backend unavailable"))) (lit "policy") fresh
  /\ on_summarize (lit "k") Json.loads
       (always (server_error (lit "quota exceeded"))) (lit "policy") fresh
     = on_summarize (lit "k") Json.loads
         (always (server_error (lit "backend unavailable"))) (lit "policy") fresh.
Proof.
  split; [| split].
  - vm_compute. discriminate.
  - vm_compute. reflexivity.
  - vm_compute. reflexivity.
Qed.

(** C6 on the case the guard of line 101 misses. The envelope has
    candidates, content and parts, and its first part has no text: the
    path of the claim is absent, yet the code shows the report of an
    unexpected error, the [KeyError] of the subscript of line 102, and not
    the raw envelope. *)
Lemma part_without_text_is_an_unexpected_error :
  (exists result,
     Json.loads envelope_without_text = Ret result /\
     spec_candidate_text result = None /\
     summarize_document (lit "k") Json.loads
       (always (reply 200 envelope_without_text)) (lit "policy") fresh
     = (Ret VNone,
        after_request (lit "k") (lit "policy") fresh
          [unexpected_error (KeyError (VStr (lit "text")))]) /\
     ~ In (st_json result)
         (ui (snd (summarize_document (lit "k") Json.loads
                     (always (reply 200 envelope_without_text))
                     (lit "policy") fresh)))).
Proof.
  eexists. split; [vm_compute; reflexivity |].
  split; [vm_compute; reflexivity |].
  split; [vm_compute; reflexivity |].
  vm_compute. intros [H | [H | []]]; discriminate H.
Qed.

(** An undecodable candidate text, end to end in a fresh world. *)
Lemma undecodable_text_example :
  summarize_document (lit "k") Json.loads
    (always (reply 200 (envelope_of (lit "Sorry, I cannot help."))))
    (lit "policy") fresh
  = (Ret VNone,
     after_request (lit "k") (lit "policy") fresh
       [decode_error JSONDecodeError;
        st_text (envelope_of (lit "Sorry, I cannot help."))]).
Proof.
  eapply (@undecodable_text_is_a_decode_error (lit "k") Json.loads
            (always (reply 200 (envelope_of (lit "Sorry, I cannot help."))))
            (lit "policy")
            (reply 200 (envelope_of (lit "Sorry, I cannot help.")))).
  - reflexivity.
  - left; reflexivity.
  - vm_compute; reflexivity.
  - vm_compute; reflexivity.
  - vm_compute; reflexivity.
Defined.

(** C8. The request is a function of the document text alone: two runs of
    [summarize_document] on the same text, in any two worlds, against any
    two networks and decoders, send the same one request, whose body is
    the payload: one user message holding the prompt with the text put in,
    and the constant schema. *)
Theorem request_depends_on_the_document_only :
  forall key t loads1 net1 w1 loads2 net2 w2,
    sent (snd (summarize_document key loads1 net1 t w1))
    = sent w1 ++ [summary_request key t]
    /\ sent (snd (summarize_document key loads2 net2 t w2))
       = sent w2 ++ [summary_request key t]
    /\ req_json (summary_request key t) =
         VDict
           [(lit "contents",
             VList
               [VDict
                  [(lit "role", VStr (lit "user"));
                   (lit "parts",
                    VList
                      [VDict
                         [(lit "text",
                           VStr (prompt_head ++ t ++ prompt_tail))]])]]);
            (lit "generationConfig",
             VDict
               [(lit "responseMimeType", VStr (lit "application/json"));
                (lit "responseSchema", responseSchema)])].
Proof.
  intros. split; [| split].
  - apply summarize_document_sends_once.
  - apply summarize_document_sends_once.
  - reflexivity.
Qed.

(** C10. A reply can decode and still be reported as a failure: the texts
    of the empty object, the empty array and the empty string decode, to
    values that are falsy; and whenever the decoded value is falsy it is
    stored in the session and the failure message is shown, with no
    report. *)
Theorem decoded_falsy_reply_is_reported_as_failure :
  (Json.loads (lit "{}") = Ret (VDict []) /\
   Json.loads (lit "[]") = Ret (VList []) /\
   Json.loads [dquote; dquote] = Ret (VStr []) /\
   truthy (VDict []) = false /\ truthy (VList []) = false /\
   truthy (VStr []) = false)
  /\ forall key loads net t r result s v w,
       truthy (VStr t) = true ->
       net (sent w) (summary_request key t) = Ret r ->
       status_passes r ->
       loads (text r) = Ret result ->
       spec_candidate_text result = Some (VStr s) ->
       loads (unwrap_fence s) = Ret v ->
       truthy v = false ->
       summarize_document key loads net t w
       = (Ret v, after_request key t w [])
       /\ on_summarize key loads net t w
          = (Ret tt, after_run key t w [failure_message] v).
Proof.
  split.
  - repeat split; vm_compute; reflexivity.
  - intros. eapply falsy_result_shows_failure; eassumption.
Qed.

(** The empty object as the candidate text, end to end in a fresh world. *)
Lemma empty_object_reply_example :
  summarize_document (lit "k") Json.loads
    (always (reply 200 (envelope_of (lit "{}")))) (lit "policy") fresh
  = (Ret (VDict []), after_request (lit "k") (lit "policy") fresh [])
  /\ on_summarize (lit "k") Json.loads
       (always (reply 200 (envelope_of (lit "{}")))) (lit "policy") fresh
     = (Ret tt,
        after_run (lit "k") (lit "policy") fresh [failure_message] (VDict [])).
Proof.
  eapply (proj2 decoded_falsy_reply_is_reported_as_failure (lit "k")
            Json.loads (always (reply 200 (envelope_of (lit "{}"))))
            (lit "policy") (reply 200 (envelope_of (lit "{}")))).
  - reflexivity.
  - reflexivity.
  - left; reflexivity.
  - vm_compute; reflexivity.
  - vm_compute; reflexivity.
  - vm_compute; reflexivity.
  - reflexivity.
Defined.

(* ================================================================== *)
(** * The UTF-8 codec round trip *)
(* ================================================================== *)

Lemma to_N_byte_of_N (n : N) :
  (n < 256)%N -> Byte.to_N (Utf8.byte_of_N n) = n.
Proof.
  intros H. unfold Utf8.byte_of_N. rewrite N.mod_small by exact H.
  destruct (Byte.of_N n) eqn:E.
  - apply Byte.to_of_N; exact E.
  - apply Byte.of_N_None_iff in E. lia.
Qed.

(** Quotients and remainders by 64 as atoms, with their equations, so
    that linear arithmetic decides the goal. *)
Ltac div_mod_atoms c :=
  let q1 := fresh "q" in let m0 := fresh "m" in
  let q2 := fresh "q" in let m1 := fresh "m" in
  let q3 := fresh "q" in let m2 := fresh "m" in
  repeat match goal with
         | H : context [(_ / _)%N] |- _ => revert H
         | H : context [(_ mod _)%N] |- _ => revert H
         end;
  rewrite ?(N.Div0.div_div c 64 64 : (c / 64 / 64 = c / 4096)%N);
  rewrite ?(N.Div0.div_div c 4096 64 : (c / 4096 / 64 = c / 262144)%N);
  change (c / 4096)%N with (c / (64 * 64))%N;
  change (c / 262144)%N with (c / (64 * 64 * 64))%N;
  rewrite <- ?N.Div0.div_div;
  pose proof (N.Div0.div_mod c 64);
  pose proof (N.mod_upper_bound c 64 ltac:(lia));
  pose proof (N.Div0.div_mod (c / 64) 64);
  pose proof (N.mod_upper_bound (c / 64) 64 ltac:(lia));
  pose proof (N.Div0.div_mod (c / 64 / 64) 64);
  pose proof (N.mod_upper_bound (c / 64 / 64) 64 ltac:(lia));
  generalize dependent (c mod 64)%N; intros m0;
  generalize dependent ((c / 64) mod 64)%N; intros m1;
  generalize dependent ((c / 64 / 64) mod 64)%N; intros m2;
  generalize dependent (c / 64 / 64 / 64)%N; intros q3;
  generalize dependent (c / 64 / 64)%N; intros q2;
  generalize dependent (c / 64)%N; intros q1; intros.

Ltac decide_bounds c :=
  repeat match goal with
         | |- context [(?a <? ?b)%N] =>
             destruct (N.ltb_spec a b);
             [| try (exfalso; div_mod_atoms c; lia)];
             try (exfalso; div_mod_atoms c; lia)
         | |- context [(?a <=? ?b)%N] =>
             destruct (N.leb_spec a b);
             [| try (exfalso; div_mod_atoms c; lia)];
             try (exfalso; div_mod_atoms c; lia)
         end.

Lemma decode_points_cons (b0 : byte) (r0 : list byte) :
  Utf8.decode_points (b0 :: r0) =
  let n0 := Byte.to_N b0 in
  if (n0 <? 128)%N then
    option_map (cons n0) (Utf8.decode_points r0)
  else if (n0 <? 192)%N then None
  else if (n0 <? 224)%N then
    match r0 with
    | b1 :: r1 =>
        let n1 := Byte.to_N b1 in
        let c := ((n0 - 192) * 64 + (n1 - 128))%N in
        if Utf8.is_cont n1 && (128 <=? c)%N
        then option_map (cons c) (Utf8.decode_points r1)
        else None
    | _ => None
    end
  else if (n0 <? 240)%N then
    match r0 with
    | b1 :: b2 :: r2 =>
        let n1 := Byte.to_N b1 in
        let n2 := Byte.to_N b2 in
        let c := (((n0 - 224) * 64 + (n1 - 128)) * 64 + (n2 - 128))%N in
        if Utf8.is_cont n1 && Utf8.is_cont n2 && (2048 <=? c)%N
           && negb (Utf8.is_surrogate c)
        then option_map (cons c) (Utf8.decode_points r2)
        else None
    | _ => None
    end
  else if (n0 <? 248)%N then
    match r0 with
    | b1 :: b2 :: b3 :: r3 =>
        let n1 := Byte.to_N b1 in
        let n2 := Byte.to_N b2 in
        let n3 := Byte.to_N b3 in
        let c :=
          ((((n0 - 240) * 64 + (n1 - 128)) * 64 + (n2 - 128)) * 64
           + (n3 - 128))%N in
        if Utf8.is_cont n1 && Utf8.is_cont n2 && Utf8.is_cont n3
           && (65536 <=? c)%N && (c <=? 1114111)%N
        then option_map (cons c) (Utf8.decode_points r3)
        else None
    | _ => None
    end
  else None.
Proof. reflexivity. Qed.

Lemma decode_encode_point (c : N) (rest : list byte) :
  Utf8.is_scalar c = true ->
  Utf8.decode_points (Utf8.encode_point c ++ rest)
  = option_map (cons c) (Utf8.decode_points rest).
Proof.
  unfold Utf8.is_scalar, Utf8.is_surrogate. intros Hc.
  apply andb_true_iff in Hc. destruct Hc as [Hmax Hsur].
  apply N.leb_le in Hmax. apply negb_true_iff in Hsur.
  unfold Utf8.encode_point.
  destruct (N.ltb_spec c 128); [| destruct (N.ltb_spec c 2048);
                                  [| destruct (N.ltb_spec c 65536)]].
  - cbn [app]. rewrite decode_points_cons. cbv beta iota zeta.
    rewrite to_N_byte_of_N by lia.
    destruct (N.ltb_spec c 128); [reflexivity | lia].
  - cbn [app]. rewrite decode_points_cons. cbv beta iota zeta.
    rewrite !to_N_byte_of_N by (div_mod_atoms c; lia).
    unfold Utf8.is_cont.
    replace ((192 + c / 64 - 192) * 64 + (128 + c mod 64 - 128))%N
      with c by (div_mod_atoms c; lia).
    decide_bounds c. reflexivity.
  - cbn [app]. rewrite decode_points_cons. cbv beta iota zeta.
    rewrite !to_N_byte_of_N by (div_mod_atoms c; lia).
    unfold Utf8.is_cont, Utf8.is_surrogate.
    replace (((224 + c / 4096 - 224) * 64 + (128 + (c / 64) mod 64 - 128)) * 64
             + (128 + c mod 64 - 128))%N with c by (div_mod_atoms c; lia).
    rewrite Hsur.
    decide_bounds c. reflexivity.
  - cbn [app]. rewrite decode_points_cons. cbv beta iota zeta.
    rewrite !to_N_byte_of_N by (div_mod_atoms c; lia).
    unfold Utf8.is_cont.
    replace ((((240 + c / 262144 - 240) * 64
               + (128 + (c / 4096) mod 64 - 128)) * 64
              + (128 + (c / 64) mod 64 - 128)) * 64
             + (128 + c mod 64 - 128))%N with c by (div_mod_atoms c; lia).
    decide_bounds c. reflexivity.
Qed.

(** Decoding what was encoded gives the string back, character for
    character. *)
Lemma decode_encode (s : str) :
  scalar_string s -> Utf8.decode (Utf8.encode s) = Ret s.
Proof.
  intros Hs. unfold Utf8.decode.
  assert (H : Utf8.decode_points (Utf8.encode s) = Some s).
  { induction Hs as [|c s Hc Hs IH]; [reflexivity|].
    unfold Utf8.encode in *. cbn [flat_map].
    rewrite decode_encode_point by exact Hc. rewrite IH. reflexivity. }
  rewrite H. reflexivity.
Qed.

(* ================================================================== *)
(** * The text extractor *)
(* ================================================================== *)

Section Extractor.

Variable PdfReader : list byte -> outcome (list page).

(** The loop over the page numbers, once the pages before them are done:
    the pages that give text add it to the text so far, in order. *)
Lemma extract_pages_prefix (texts : list str) :
  forall (pre post : list page) (k : nat) (acc : str) (w : world),
    extract_pages (pre ++ map Ret texts ++ post)
      (seq (length pre) (length texts + k)) acc w
    = extract_pages (pre ++ map Ret texts ++ post)
        (seq (length pre + length texts) k) (acc ++ concat texts) w.
Proof.
  induction texts as [|t texts IH]; intros pre post k acc w.
  - cbn [length concat map]. rewrite Nat.add_0_r, app_nil_r. reflexivity.
  - cbn [length map concat Nat.add seq extract_pages].
    rewrite nth_error_app2 by lia. rewrite Nat.sub_diag.
    cbn [app nth_error]. unfold bind at 1, lift at 1.
    replace (pre ++ Ret t :: map Ret texts ++ post)
      with ((pre ++ [Ret t]) ++ map Ret texts ++ post)
      by (rewrite <- app_assoc; reflexivity).
    replace (S (length pre)) with (length (pre ++ [Ret t]))
      by (rewrite length_app; cbn [length]; lia).
    rewrite IH. rewrite length_app. cbn [length].
    rewrite <- !app_assoc.
    replace (length pre + 1 + length texts)%nat
      with (length pre + S (length texts))%nat by lia.
    reflexivity.
Qed.

Lemma extract_pages_all (texts : list str) (w : world) :
  extract_pages (map Ret texts) (seq 0 (length (map Ret texts))) [] w
  = (Ret (concat texts), w).
Proof.
  rewrite length_map.
  pose proof (extract_pages_prefix texts [] [] 0 [] w) as H.
  cbn [app length] in H. rewrite app_nil_r, Nat.add_0_r in H.
  eapply eq_trans; [exact H|]. reflexivity.
Qed.

Lemma extract_pages_raises (texts : list str) (e : exn) (rest : list page)
  (w : world) :
  extract_pages (map Ret texts ++ Raise e :: rest)
    (seq 0 (length (map Ret texts ++ Raise e :: rest))) [] w
  = (Raise e, w).
Proof.
  rewrite length_app, length_map. cbn [length].
  pose proof (extract_pages_prefix texts [] (Raise e :: rest)
                (S (length rest)) [] w) as H.
  cbn [app length] in H. eapply eq_trans; [exact H|].
  cbn [Nat.add seq extract_pages].
  rewrite nth_error_app2 by (rewrite length_map; lia).
  rewrite length_map, Nat.sub_diag. reflexivity.
Qed.

Lemma extract_text_from_pdf_texts (f : upload) (w : world)
  (texts : list str) :
  PdfReader (getvalue f) = Ret (map Ret texts) ->
  extract_text_from_pdf PdfReader f w = (Ret (Some (concat texts)), w).
Proof.
  intros H. unfold extract_text_from_pdf, catch, bind, lift.
  rewrite H, extract_pages_all. reflexivity.
Qed.

Lemma extract_text_from_pdf_page_raises (f : upload) (w : world)
  (texts : list str) (e : exn) (rest : list page) :
  PdfReader (getvalue f) = Ret (map Ret texts ++ Raise e :: rest) ->
  extract_text_from_pdf PdfReader f w
  = (Ret None, add_ui w [pdf_read_error e]).
Proof.
  intros H. unfold extract_text_from_pdf, catch, bind, lift.
  rewrite H, extract_pages_raises. reflexivity.
Qed.

(** C3. When every page gives its text, the extracted text is the texts of
    the pages joined in document order with nothing between them. When the
    extraction of a page raises (or the reader does), the error is shown
    with the description of the cause and [None] is returned: the text of
    the pages before it is not. *)
Theorem pdf_text_is_the_pages_in_order (f : upload) (w : world) :
  (forall texts,
     PdfReader (getvalue f) = Ret (map Ret texts) ->
     extract_text_from_pdf PdfReader f w = (Ret (Some (concat texts)), w))
  /\ (forall texts e rest,
        PdfReader (getvalue f) = Ret (map Ret texts ++ Raise e :: rest) ->
        extract_text_from_pdf PdfReader f w
        = (Ret None, add_ui w [pdf_read_error e]))
  /\ (forall e,
        PdfReader (getvalue f) = Raise e ->
        extract_text_from_pdf PdfReader f w
        = (Ret None, add_ui w [pdf_read_error e])).
Proof.
  split; [| split].
  - intros texts H. apply extract_text_from_pdf_texts; exact H.
  - intros texts e rest H.
    apply extract_text_from_pdf_page_raises with (texts := texts) (rest := rest).
    exact H.
  - intros e H. unfold extract_text_from_pdf, catch, bind, lift.
    rewrite H. reflexivity.
Qed.

Lemma concat_all_empty (pages : list page) :
  Forall (fun p => p = Ret []) pages ->
  exists texts, pages = map Ret texts /\ concat texts = [].
Proof.
  induction 1 as [|p pages Hp _ (texts & -> & Hc)].
  - exists []. split; reflexivity.
  - exists ([] :: texts). subst p. split; [reflexivity | exact Hc].
Qed.

Section Run.

Variable key : str.
Variable decode_utf8 : list byte -> outcome str.
Variable loads : str -> outcome value.
Variable net : list request -> request -> outcome response.

(** C9. For a PDF whose pages all give the empty text, or that has no page,
    extraction returns the empty string, and the script treats it as no
    content: it shows the warning and stops, with no exception, no request
    sent and the session as it was, whether or not the button is
    pressed. *)
Theorem empty_pdf_is_no_content (f : upload) (pages : list page)
  (clicked : bool) (w : world) :
  upload_type f = lit "application/pdf" ->
  PdfReader (getvalue f) = Ret pages ->
  Forall (fun p => p = Ret []) pages ->
  extract_text_from_pdf PdfReader f w = (Ret (Some []), w)
  /\ script key decode_utf8 loads net PdfReader (Some f) clicked w
     = (Ret tt, add_ui w [nothing_to_summarize]).
Proof.
  intros Htype Hpages Hall.
  destruct (concat_all_empty Hall) as (texts & -> & Hc).
  assert (Hx : extract_text_from_pdf PdfReader f w = (Ret (Some []), w)).
  { rewrite <- Hc. apply extract_text_from_pdf_texts. exact Hpages. }
  split; [exact Hx|].
  unfold script, read_upload. rewrite Htype.
  change (str_eqb (lit "application/pdf") (lit "text/plain")) with false.
  change (str_eqb (lit "application/pdf") (lit "application/pdf")) with true.
  cbv iota. unfold bind at 1. rewrite Hx. reflexivity.
Qed.

(** C4. For a plain-text upload whose bytes decode, the extracted text is
    the decoding of the bytes, character for character; it is what the
    preview shows. With the codec of the model, the upload of the encoding
    of a string gives that string back. *)
Theorem plain_text_is_decoded_verbatim :
  (forall (f : upload) (s : str) (w : world),
     upload_type f = lit "text/plain" ->
     decode_utf8 (getvalue f) = Ret s ->
     read_upload decode_utf8 PdfReader f w = (Ret (Some s), w)
     /\ (s <> [] ->
         script key decode_utf8 loads net PdfReader (Some f) false w
         = (Ret tt, add_ui w (preview s))))
  /\ (forall (s : str) (w : world),
        scalar_string s ->
        read_upload Utf8.decode PdfReader (text_file (Utf8.encode s)) w
        = (Ret (Some s), w)).
Proof.
  assert (Hread : forall dec f s w,
            upload_type f = lit "text/plain" ->
            dec (getvalue f) = Ret s ->
            read_upload dec PdfReader f w = (Ret (Some s), w)).
  { intros dec f s w Htype Hdec. unfold read_upload. rewrite Htype.
    change (str_eqb (lit "text/plain") (lit "text/plain")) with true.
    cbv iota. unfold bind, lift. rewrite Hdec. reflexivity. }
  split.
  - intros f s w Htype Hdec. split; [apply Hread; assumption|].
    intros Hs. unfold script. unfold bind at 1.
    rewrite (Hread decode_utf8 f s w Htype Hdec).
    destruct s as [|c s]; [congruence|].
    cbn [truthy length Nat.eqb negb].
    unfold bind, emit, ret, add_ui, preview. cbn.
    rewrite <- !app_assoc. reflexivity.
  - intros s w Hs. apply Hread; [reflexivity|].
    apply decode_encode; exact Hs.
Qed.

End Run.

End Extractor.

(* ================================================================== *)
(** * The extractor on concrete files *)
(* ================================================================== *)

(** Three pages joined, and a file whose second page cannot be read. *)
Lemma pdf_pages_example :
  extract_text_from_pdf
    (reader_of [Ret (lit "Auto "); Ret (lit "policy"); Ret (lit " #123")])
    (pdf_file []) fresh
  = (Ret (Some (lit "Auto policy #123")), fresh)
  /\ extract_text_from_pdf
       (reader_of [Ret (lit "Auto "); Raise (OtherError (lit "bad stream"));
                   Ret (lit " #123")])
       (pdf_file []) fresh
     = (Ret None, add_ui fresh [pdf_read_error (OtherError (lit "bad stream"))]).
Proof.
  split.
  - apply (proj1 (pdf_text_is_the_pages_in_order
                    (reader_of [Ret (lit "Auto "); Ret (lit "policy");
                                Ret (lit " #123")])
                    (pdf_file []) fresh)
             [lit "Auto "; lit "policy"; lit " #123"]).
    reflexivity.
  - apply (proj1 (proj2 (pdf_text_is_the_pages_in_order
                           (reader_of [Ret (lit "Auto ");
                                       Raise (OtherError (lit "bad stream"));
                                       Ret (lit " #123")])
                           (pdf_file []) fresh))
             [lit "Auto "] (OtherError (lit "bad stream")) [Ret (lit " #123")]).
    reflexivity.
Defined.

(** A PDF of two pages without text, with the button pressed. *)
Lemma empty_pdf_example :
  extract_text_from_pdf (reader_of [Ret []; Ret []]) (pdf_file []) fresh
  = (Ret (Some []), fresh)
  /\ script (lit "k") Utf8.decode Json.loads
       (always (reply 200 (envelope_of (lit "{}"))))
       (reader_of [Ret []; Ret []]) (Some (pdf_file [])) true fresh
     = (Ret tt, add_ui fresh [nothing_to_summarize]).
Proof.
  apply (@empty_pdf_is_no_content (reader_of [Ret []; Ret []]) (lit "k")
           Utf8.decode Json.loads
           (always (reply 200 (envelope_of (lit "{}"))))
           (pdf_file []) [Ret []; Ret []] true fresh).
  - reflexivity.
  - reflexivity.
  - repeat constructor.
Defined.

(** A text file with blanks at both ends, an accented letter and a
    Windows line end: all of it is kept. *)
Lemma plain_text_example :
  read_upload Utf8.decode (reader_of []) (text_file sample_bytes) fresh
  = (Ret (Some sample_text), fresh)
  /\ script (lit "k") Utf8.decode Json.loads
       (always (reply 200 (envelope_of (lit "{}"))))
       (reader_of []) (Some (text_file sample_bytes)) false fresh
     = (Ret tt, add_ui fresh (preview sample_text)).
Proof.
  destruct (proj1 (@plain_text_is_decoded_verbatim (reader_of []) (lit "k")
                     Utf8.decode Json.loads
                     (always (reply 200 (envelope_of (lit "{}")))))
              (text_file sample_bytes) sample_text fresh
              eq_refl eq_refl) as [H1 H2].
  split; [exact H1 | apply H2; discriminate].
Defined.

(* ================================================================== *)
(** * What a computation leaves untouched *)
(* ================================================================== *)

Lemma add_ui_nil (w : world) : add_ui w [] = w.
Proof. destruct w. unfold add_ui. cbn. rewrite app_nil_r. reflexivity. Qed.

Lemma add_ui_add (w : world) (a b : list event) :
  add_ui (add_ui w a) b = add_ui w (a ++ b).
Proof. unfold add_ui. cbn. rewrite app_assoc. reflexivity. Qed.

Lemma shows_ret (A : Type) (a : A) : only_shows (ret a).
Proof. intros w. exists []. symmetry; apply add_ui_nil. Qed.

Lemma shows_raise (A : Type) (e : exn) : only_shows (@raise A e).
Proof. intros w. exists []. symmetry; apply add_ui_nil. Qed.

Lemma shows_lift (A : Type) (o : outcome A) : only_shows (lift o).
Proof. intros w. exists []. symmetry; apply add_ui_nil. Qed.

Lemma shows_emit (e : event) : only_shows (emit e).
Proof. intros w. exists [e]. reflexivity. Qed.

Lemma shows_bind (A B : Type) (m : M A) (k : A -> M B) :
  only_shows m -> (forall a, only_shows (k a)) -> only_shows (bind m k).
Proof.
  intros Hm Hk w. unfold bind. destruct (Hm w) as [evs Hw].
  destruct (m w) as [[a|e] w']; simpl in *; subst w'.
  - destruct (Hk a (add_ui w evs)) as [evs' Hw']. exists (evs ++ evs').
    rewrite Hw'. apply add_ui_add.
  - exists evs. reflexivity.
Qed.

Lemma shows_catch (A : Type) (m : M A) (h : exn -> M A) :
  only_shows m -> (forall e, only_shows (h e)) -> only_shows (catch m h).
Proof.
  intros Hm Hh w. unfold catch. destruct (Hm w) as [evs Hw].
  destruct (m w) as [[a|e] w']; simpl in *; subst w'.
  - exists evs. reflexivity.
  - destruct (Hh e (add_ui w evs)) as [evs' Hw']. exists (evs ++ evs').
    rewrite Hw'. apply add_ui_add.
Qed.

Lemma shows_py_get (o : value) (k : str) (d : value) :
  only_shows (py_get o k d).
Proof.
  unfold py_get. destruct o; try apply shows_raise.
  destruct (dict_lookup d0 k); apply shows_ret.
Qed.

Lemma shows_py_getitem (o k : value) : only_shows (py_getitem o k).
Proof.
  unfold py_getitem.
  repeat match goal with
         | |- only_shows (ret _) => apply shows_ret
         | |- only_shows (raise _) => apply shows_raise
         | |- only_shows (match ?x with _ => _ end) => destruct x
         end.
Qed.

Lemma shows_py_and (a b : M value) :
  only_shows a -> only_shows b -> only_shows (py_and a b).
Proof.
  intros Ha Hb. unfold py_and. apply shows_bind; [exact Ha|].
  intros v. destruct (truthy v); [exact Hb | apply shows_ret].
Qed.

Lemma shows_py_iter (o : value) : only_shows (py_iter o).
Proof.
  unfold py_iter. destruct o; try apply shows_raise; apply shows_ret.
Qed.

Lemma shows_for_each (A : Type) (xs : list A) (body : A -> M unit) :
  (forall x, only_shows (body x)) -> only_shows (for_each xs body).
Proof.
  intros Hb. induction xs as [|x xs IH]; cbn [for_each].
  - apply shows_ret.
  - apply shows_bind; [apply Hb | intros _; exact IH].
Qed.

Lemma shows_raise_for_status (r : response) : only_shows (raise_for_status r).
Proof.
  unfold raise_for_status.
  repeat match goal with
         | |- only_shows (ret _) => apply shows_ret
         | |- only_shows (raise _) => apply shows_raise
         | |- only_shows (if ?x then _ else _) => destruct x
         end.
Qed.

Lemma shows_bullets (items : value) : only_shows (bullets items).
Proof.
  unfold bullets. apply shows_bind; [apply shows_py_iter|].
  intros xs. apply shows_for_each. intros x. apply shows_emit.
Qed.

Ltac shows :=
  repeat first
    [ apply shows_ret | apply shows_raise | apply shows_lift
    | apply shows_emit | apply shows_py_get | apply shows_py_getitem
    | apply shows_raise_for_status | apply shows_bullets
    | apply shows_py_and
    | apply shows_bind; [| intros ?]
    | match goal with
      | |- only_shows (if ?b then _ else _) => destruct b
      | |- only_shows (match ?x with _ => _ end) => destruct x
      end ].

Lemma shows_summarize_reply (loads : str -> outcome value) (r : response) :
  only_shows (summarize_reply loads r).
Proof.
  unfold summarize_reply, response_json, has_parts, first_content,
    first_candidate.
  shows.
Qed.

Lemma shows_summarize_except (o : option response) (e : exn) :
  only_shows (summarize_except o e).
Proof. unfold summarize_except. shows. Qed.

Lemma shows_policy_table (pd : value) : only_shows (policy_table pd).
Proof. unfold policy_table. shows. Qed.

Lemma shows_render_summary (v : value) : only_shows (render_summary v).
Proof.
  unfold render_summary.
  repeat first
    [ apply shows_policy_table
    | apply shows_ret | apply shows_raise | apply shows_emit
    | apply shows_py_get | apply shows_py_getitem | apply shows_bullets
    | apply shows_bind; [| intros ?]
    | match goal with
      | |- only_shows (if ?b then _ else _) => destruct b
      end ].
Qed.

Lemma shows_extract_pages (pages : list page) (nums : list nat) :
  forall text, only_shows (extract_pages pages nums text).
Proof.
  induction nums as [|n nums IH]; intros text; cbn [extract_pages].
  - apply shows_ret.
  - destruct (nth_error pages n); [|apply shows_raise].
    apply shows_bind; [apply shows_lift | intros t; apply IH].
Qed.

Lemma shows_extract_text_from_pdf
  (PdfReader : list byte -> outcome (list page)) (f : upload) :
  only_shows (extract_text_from_pdf PdfReader f).
Proof.
  unfold extract_text_from_pdf. apply shows_catch.
  - apply shows_bind; [apply shows_lift | intros pages].
    apply shows_bind; [apply shows_extract_pages | intros t; apply shows_ret].
  - intros e. shows.
Qed.

Lemma shows_read_upload (dec : list byte -> outcome str)
  (PdfReader : list byte -> outcome (list page)) (f : upload) :
  only_shows (read_upload dec PdfReader f).
Proof.
  unfold read_upload.
  destruct (str_eqb (upload_type f) (lit "text/plain")); [shows|].
  destruct (str_eqb (upload_type f) (lit "application/pdf"));
    [apply shows_extract_text_from_pdf | shows].
Qed.

(* ================================================================== *)
(** * Further properties of the summarization client *)
(* ================================================================== *)

Lemma after_request_add (key t : str) (w : world) (evs evs' : list event) :
  add_ui (after_request key t w evs) evs' = after_request key t w (evs ++ evs').
Proof.
  unfold add_ui, after_request. cbn. rewrite <- app_assoc. reflexivity.
Qed.

(** Runs what is left of a computation made of binds and events, and
    compares the two worlds. *)
Ltac run_world :=
  repeat (unfold bind, emit, ret, raise, lift; cbv beta iota);
  unfold after_request, after_run, add_ui;
  cbn [ui sent session_state app];
  rewrite <- ?app_assoc; cbn [app];
  reflexivity.

Section Replies.

Variable key : str.
Variable loads : str -> outcome value.
Variable net : list request -> request -> outcome response.

Lemma reply_is_always_handled (t : str) (r : response) (w : world) :
  net (sent w) (summary_request key t) = Ret r ->
  exists v evs,
    summarize_document key loads net t w
    = (Ret v, after_request key t w evs).
Proof.
  intros Hnet.
  rewrite summarize_document_reply with (r := r) by exact Hnet.
  unfold catch.
  destruct (shows_summarize_reply loads r (after_request key t w []))
    as [evs Hw].
  destruct (summarize_reply loads r (after_request key t w []))
    as [[v|e] w'] eqn:E; simpl in Hw; subst w'; rewrite after_request_add.
  - exists v, evs. reflexivity.
  - unfold summarize_except.
    destruct (is_RequestException e); [| destruct (is_JSONDecodeError e)];
      unfold bind, emit, ret; cbn [text];
      repeat match goal with
             | |- context [mkWorld (ui ?x ++ ?l) (sent ?x) (session_state ?x)] =>
                 change (mkWorld (ui x ++ l) (sent x) (session_state x))
                   with (add_ui x l);
                 rewrite after_request_add
             end;
      eexists; eexists; reflexivity.
Qed.

(** Once the network has answered, [summarize_document] returns whatever
    the reply holds: every exception raised on the way is caught by one of
    the three clauses. It shows events, sends the one request, and leaves
    the session alone. *)
Theorem exceptions_of_a_reply_are_caught (t : str) (r : response)
  (w : world) :
  net (sent w) (summary_request key t) = Ret r ->
  exists v evs,
    summarize_document key loads net t w
    = (Ret v, after_request key t w evs).
Proof.
  intros Hnet.
  rewrite summarize_document_reply with (r := r) by exact Hnet.
  unfold catch.
  destruct (shows_summarize_reply loads r (after_request key t w []))
    as [evs Hw].
  destruct (summarize_reply loads r (after_request key t w []))
    as [[v|e] w'] eqn:E; simpl in Hw; subst w'; rewrite after_request_add.
  - exists v, evs. reflexivity.
  - unfold summarize_except.
    destruct (is_RequestException e); [| destruct (is_JSONDecodeError e)];
      unfold bind, emit, ret; cbn [text];
      repeat match goal with
             | |- context [mkWorld (ui ?x ++ ?l) (sent ?x) (session_state ?x)] =>
                 change (mkWorld (ui x ++ l) (sent x) (session_state x))
                   with (add_ui x l);
                 rewrite after_request_add
             end;
      eexists; eexists; reflexivity.
Qed.

(** When the request itself fails with an exception of [requests], the
    network error is reported and [None] is returned; a press of the
    button then stores [None] and shows the failure message. *)
Theorem transport_failure_is_reported (t : str) (e : exn) (w : world) :
  truthy (VStr t) = true ->
  net (sent w) (summary_request key t) = Raise e ->
  is_RequestException e = true ->
  summarize_document key loads net t w
  = (Ret VNone, after_request key t w [network_or_api_error e])
  /\ on_summarize key loads net t w
     = (Ret tt,
        after_run key t w [network_or_api_error e; failure_message] VNone).
Proof.
  intros Ht Hnet He.
  assert (Hsum : forall w', sent w' = sent w ->
            summarize_document key loads net t w'
            = (Ret VNone, after_request key t w' [network_or_api_error e])).
  { intros w' Hw'.
    rewrite summarize_document_no_reply with (e := e)
      by (rewrite Hw'; exact Hnet).
    unfold summarize_except. rewrite He.
    unfold bind, emit, ret. rewrite after_request_snoc. reflexivity. }
  split; [apply Hsum; reflexivity|].
  apply on_summarize_failure with (evs := [network_or_api_error e]); auto.
Qed.

(** An envelope of the wrong shape is reported as an unexpected error and
    the envelope is not shown: when the decoded body is not an object, and
    when the text of the first part is not a string. *)
Theorem odd_envelope_is_an_unexpected_error (t : str) (r : response)
  (result : value) (w : world) :
  net (sent w) (summary_request key t) = Ret r ->
  status_passes r ->
  loads (text r) = Ret result ->
  (not_a_dict result \/
   exists tv, spec_candidate_text result = Some tv /\ not_a_str tv) ->
  summarize_document key loads net t w
  = (Ret VNone, after_request key t w [unexpected_error AttributeError]).
Proof.
  intros Hnet Hst Hres Hodd.
  rewrite summarize_document_reply with (r := r) by exact Hnet.
  unfold catch.
  destruct Hodd as [Hnd | (tv & Hpath & Hns)].
  - unfold summarize_reply. unfold bind at 1.
    rewrite (raise_for_status_passes _ Hst).
    unfold response_json, bind at 1. rewrite Hres. unfold ret at 1.
    destruct result; try contradiction;
      unfold has_parts, py_and, py_get, bind, raise; cbv beta iota;
      unfold summarize_except;
      cbn [is_RequestException is_JSONDecodeError]; run_world.
  - rewrite summarize_reply_text with (result := result) (text_value := tv)
      by assumption.
    destruct tv; try contradiction;
      unfold summarize_except;
      cbn [is_RequestException is_JSONDecodeError]; run_world.
Qed.

(** A decoded value that is truthy and is not an object stops the script:
    it is stored, the head of the report is shown, and the first read of a
    member raises [AttributeError], which nothing catches. *)
Theorem truthy_non_object_result_raises (t : str) (r : response)
  (result : value) (s : str) (v : value) (w : world) :
  truthy (VStr t) = true ->
  net (sent w) (summary_request key t) = Ret r ->
  status_passes r ->
  loads (text r) = Ret result ->
  spec_candidate_text result = Some (VStr s) ->
  loads (unwrap_fence s) = Ret v ->
  truthy v = true ->
  not_a_dict v ->
  on_summarize key loads net t w
  = (Raise AttributeError, after_run key t w report_head v).
Proof.
  intros Ht Hnet Hst Hres Hpath Hv Htrue Hnd.
  rewrite on_summarize_step with (v := v) (evs := []); auto.
  - rewrite Htrue.
    destruct v; try contradiction;
      unfold render_summary, bind, emit, py_get, raise, after_run,
        report_head;
      cbn; rewrite <- !app_assoc; reflexivity.
  - apply summarize_document_decoded with (r := r) (result := result) (s := s);
      auto.
Qed.

(** A reply whose text decodes is returned as decoded, with nothing shown
    but the first message; the status may be any that is not from 400 to
    599, and the text may be fenced. *)
Theorem decoded_reply_is_returned (t : str) (r : response)
  (result : value) (s : str) (v : value) (w : world) :
  net (sent w) (summary_request key t) = Ret r ->
  status_passes r ->
  loads (text r) = Ret result ->
  spec_candidate_text result = Some (VStr s) ->
  loads (unwrap_fence s) = Ret v ->
  summarize_document key loads net t w = (Ret v, after_request key t w []).
Proof.
  intros Hnet Hst Hres Hpath Hv.
  rewrite summarize_document_reply with (r := r) by exact Hnet.
  unfold catch.
  rewrite summarize_reply_text with (result := result) (text_value := VStr s)
    by assumption.
  rewrite Hv. reflexivity.
Qed.

End Replies.

(* ================================================================== *)
(** * Further properties of the report *)
(* ================================================================== *)

Lemma bind_run (A B : Type) (m : M A) (k : A -> M B) (w w' : world) (a : A) :
  m w = (Ret a, w') -> bind m k w = k a w'.
Proof. intros H. unfold bind. rewrite H. reflexivity. Qed.

Lemma bind_assoc (A B C : Type) (m : M A) (k1 : A -> M B) (k2 : B -> M C)
  (w : world) :
  bind (bind m k1) k2 w = bind m (fun a => bind (k1 a) k2) w.
Proof. unfold bind. destruct (m w) as [[a|e] w']; reflexivity. Qed.

Lemma emit_run (e : event) (w : world) : emit e w = (Ret tt, add_ui w [e]).
Proof. reflexivity. Qed.

Lemma py_get_run (d : list (str * value)) (k : str) (default : value)
  (w : world) :
  py_get (VDict d) k default w = (Ret (get_or d k default), w).
Proof.
  unfold py_get, get_or. destruct (dict_lookup d k); reflexivity.
Qed.

Lemma py_getitem_run (d : list (str * value)) (k : str) (v : value)
  (w : world) :
  dict_lookup d k = Some v ->
  py_getitem (VDict d) (VStr k) w = (Ret v, w).
Proof. intros H. unfold py_getitem. rewrite H. reflexivity. Qed.

Lemma for_each_bullets (xs : list value) :
  forall w,
    for_each xs (fun x => emit (bullet x)) w
    = (Ret tt, add_ui w (map bullet xs)).
Proof.
  induction xs as [|x xs IH]; intros w; cbn [for_each map].
  - unfold ret. rewrite add_ui_nil. reflexivity.
  - rewrite bind_run with (a := tt) (w' := add_ui w [bullet x])
      by reflexivity.
    rewrite IH, add_ui_add. reflexivity.
Qed.

(** A list is shown as one bullet for each of its items, in order. *)
Lemma bullets_run (xs : list value) (w : world) :
  bullets (VList xs) w = (Ret tt, add_ui w (map bullet xs)).
Proof.
  unfold bullets.
  rewrite bind_run with (a := xs) (w' := w) by reflexivity.
  apply for_each_bullets.
Qed.

Lemma get_or_found (d : list (str * value)) (k : str) (v default : value) :
  dict_lookup d k = Some v -> get_or d k default = v.
Proof. intros H. unfold get_or. rewrite H. reflexivity. Qed.

Lemma truthy_list (xs : list value) : xs <> [] -> truthy (VList xs) = true.
Proof. destruct xs; [congruence | reflexivity]. Qed.

Ltac step :=
  cbv beta iota; rewrite ?bind_assoc;
  erewrite bind_run
    by first [ apply emit_run | apply py_get_run
             | (apply py_getitem_run; eassumption)
             | apply bullets_run | apply policy_table_reads_defaults ];
  cbv beta.

Lemma render_summary_full (d : list (str * value))
  (cs es os : list value) (pd : list (str * value)) (w : world) :
  dict_lookup d (lit "coverages") = Some (VList cs) -> cs <> [] ->
  dict_lookup d (lit "exclusions") = Some (VList es) -> es <> [] ->
  dict_lookup d (lit "policyDetails") = Some (VDict pd) ->
  dict_lookup pd (lit "otherDetails") = Some (VList os) -> os <> [] ->
  render_summary (VDict d) w
  = (Ret tt,
     add_ui w (full_report (get_or d (lit "summary") NA) cs es pd os)).
Proof.
  intros Hc Hcs He Hes Hp Ho Hos.
  assert (Hpd : truthy (VDict pd) = true)
    by (apply dict_lookup_truthy with (k := lit "otherDetails") (v := VList os);
        exact Ho).
  unfold render_summary.
  do 7 step.
  rewrite get_or_found with (k := lit "coverages") (v := VList cs) by exact Hc.
  rewrite truthy_list by exact Hcs.
  do 4 step.
  rewrite get_or_found with (k := lit "exclusions") (v := VList es) by exact He.
  rewrite truthy_list by exact Hes.
  do 4 step.
  rewrite get_or_found with (k := lit "policyDetails") (v := VDict pd) by exact Hp.
  rewrite Hpd.
  do 2 step.
  rewrite get_or_found with (k := lit "otherDetails") (v := VList os) by exact Ho.
  rewrite truthy_list by exact Hos.
  do 3 step.
  cbv beta iota. rewrite emit_run, !add_ui_add.
  unfold full_report, report_head, bullet.
  cbn [app]. rewrite <- ?app_assoc. cbn [app]. reflexivity.
Qed.

(** The report of a result that has everything: the summary, one bullet
    for each coverage and each exclusion in the order of the reply, the
    policy table with the sentinel for each string that is missing, and one
    bullet for each of the other details. *)
Theorem full_result_is_reported_in_order (d : list (str * value))
  (cs es os : list value) (pd : list (str * value)) (w : world) :
  dict_lookup d (lit "coverages") = Some (VList cs) -> cs <> [] ->
  dict_lookup d (lit "exclusions") = Some (VList es) -> es <> [] ->
  dict_lookup d (lit "policyDetails") = Some (VDict pd) ->
  dict_lookup pd (lit "otherDetails") = Some (VList os) -> os <> [] ->
  render_summary (VDict d) w
  = (Ret tt,
     add_ui w (full_report (get_or d (lit "summary") NA) cs es pd os)).
Proof.
  intros Hc Hcs He Hes Hp Ho Hos.
  assert (Hpd : truthy (VDict pd) = true)
    by (apply dict_lookup_truthy with (k := lit "otherDetails") (v := VList os);
        exact Ho).
  unfold render_summary.
  do 7 step.
  rewrite get_or_found with (k := lit "coverages") (v := VList cs) by exact Hc.
  rewrite truthy_list by exact Hcs.
  do 4 step.
  rewrite get_or_found with (k := lit "exclusions") (v := VList es) by exact He.
  rewrite truthy_list by exact Hes.
  do 4 step.
  rewrite get_or_found with (k := lit "policyDetails") (v := VDict pd) by exact Hp.
  rewrite Hpd.
  do 2 step.
  rewrite get_or_found with (k := lit "otherDetails") (v := VList os) by exact Ho.
  rewrite truthy_list by exact Hos.
  do 3 step.
  cbv beta iota. rewrite emit_run, !add_ui_add.
  unfold full_report, report_head, bullet.
  cbn [app]. rewrite <- ?app_assoc. cbn [app]. reflexivity.
Qed.

(* ================================================================== *)
(** * Further properties of a run of the script *)
(* ================================================================== *)

Lemma str_eqb_neq (a b : str) : a <> b -> str_eqb a b = false.
Proof.
  intros H. destruct (str_eqb a b) eqn:E; [|reflexivity].
  apply str_eqb_eq in E. contradiction.
Qed.

Lemma dict_lookup_set_other (d : list (str * value)) (k0 k : str)
  (v : value) :
  k <> k0 -> dict_lookup (dict_set d k0 v) k = dict_lookup d k.
Proof.
  intros Hk. induction d as [|[k' v'] d IH]; simpl.
  - rewrite str_eqb_neq by congruence. reflexivity.
  - destruct (str_eqb k' k0) eqn:E0; simpl.
    + apply str_eqb_eq in E0. subst k'.
      rewrite str_eqb_neq by congruence. reflexivity.
    + destruct (str_eqb k' k); [reflexivity | exact IH].
Qed.

Lemma dict_lookup_del_other (d : list (str * value)) (k0 k : str) :
  k <> k0 -> dict_lookup (dict_del d k0) k = dict_lookup d k.
Proof.
  intros Hk. induction d as [|[k' v'] d IH]; simpl; [reflexivity|].
  destruct (str_eqb k' k0) eqn:E0; simpl.
  - apply str_eqb_eq in E0. subst k'.
    rewrite str_eqb_neq by congruence. reflexivity.
  - destruct (str_eqb k' k); [reflexivity | exact IH].
Qed.

Lemma session_after_run_other (w : world) (v : value) (k : str) :
  k <> lit "summary_data" ->
  dict_lookup (session_after_run w v) k = dict_lookup (session_state w) k.
Proof.
  intros Hk. unfold session_after_run.
  rewrite dict_lookup_set_other by exact Hk.
  destruct (dict_mem (session_state w) (lit "summary_data"));
    [apply dict_lookup_del_other; exact Hk | reflexivity].
Qed.

Section Whole.

Variable key : str.
Variable decode_utf8 : list byte -> outcome str.
Variable loads : str -> outcome value.
Variable net : list request -> request -> outcome response.
Variable PdfReader : list byte -> outcome (list page).



(** What a run does with a file that has content. *)
Lemma script_with_content (f : upload) (s : str) (clicked : bool)
  (w : world) :
  read_upload decode_utf8 PdfReader f w = (Ret (Some s), w) ->
  s <> [] ->
  script key decode_utf8 loads net PdfReader (Some f) clicked w
  = (if clicked then on_summarize key loads net s else ret tt)
      (add_ui w (preview s)).
Proof.
  intros Hread Hs. unfold script.
  rewrite bind_run with (a := Some s) (w' := w) by exact Hread.
  destruct s as [|c s]; [congruence|].
  cbn [truthy length Nat.eqb negb]. cbv beta iota.
  do 4 (erewrite bind_run by apply emit_run; cbv beta).
  rewrite !add_ui_add. reflexivity.
Qed.

Lemma read_text_upload (f : upload) (s : str) (w : world) :
  upload_type f = lit "text/plain" ->
  decode_utf8 (getvalue f) = Ret s ->
  read_upload decode_utf8 PdfReader f w = (Ret (Some s), w).
Proof.
  intros Htype Hdec. unfold read_upload. rewrite Htype.
  change (str_eqb (lit "text/plain") (lit "text/plain")) with true.
  cbv iota. unfold bind, lift. rewrite Hdec. reflexivity.
Qed.

Lemma read_pdf_upload (f : upload) (w : world) :
  upload_type f = lit "application/pdf" ->
  read_upload decode_utf8 PdfReader f w
  = extract_text_from_pdf PdfReader f w.
Proof.
  intros Htype. unfold read_upload. rewrite Htype. reflexivity.
Qed.

(** A file of any other type is refused: the error and the warning are
    shown and nothing else happens, whether or not the button is
    pressed. *)
Theorem unsupported_upload_is_refused (f : upload) (clicked : bool)
  (w : world) :
  upload_type f <> lit "text/plain" ->
  upload_type f <> lit "application/pdf" ->
  script key decode_utf8 loads net PdfReader (Some f) clicked w
  = (Ret tt, add_ui w [unsupported_type; nothing_to_summarize]).
Proof.
  intros H1 H2. unfold script, read_upload.
  rewrite (str_eqb_neq H1), (str_eqb_neq H2). run_world.
Qed.

(** A PDF that cannot be read is treated as no content: the error of the
    reader is shown, then the warning, and nothing is summarized. *)
Theorem unreadable_pdf_is_no_content (f : upload) (e : exn)
  (clicked : bool) (w : world) :
  upload_type f = lit "application/pdf" ->
  (PdfReader (getvalue f) = Raise e \/
   exists texts rest,
     PdfReader (getvalue f) = Ret (map Ret texts ++ Raise e :: rest)) ->
  script key decode_utf8 loads net PdfReader (Some f) clicked w
  = (Ret tt, add_ui w [pdf_read_error e; nothing_to_summarize]).
Proof.
  intros Htype Hbad.
  assert (Hx : extract_text_from_pdf PdfReader f w
               = (Ret None, add_ui w [pdf_read_error e])).
  { destruct Hbad as [H | (texts & rest & H)].
    - unfold extract_text_from_pdf, catch, bind, lift. rewrite H. reflexivity.
    - apply extract_text_from_pdf_page_raises with (texts := texts) (rest := rest).
      exact H. }
  unfold script.
  rewrite bind_run with (a := @None str) (w' := add_ui w [pdf_read_error e])
    by (rewrite read_pdf_upload by exact Htype; exact Hx).
  rewrite emit_run, add_ui_add. reflexivity.
Qed.

(** A PDF with text is previewed as the texts of its pages joined, and the
    button is offered. *)
Theorem pdf_with_text_is_previewed (f : upload) (texts : list str)
  (w : world) :
  upload_type f = lit "application/pdf" ->
  PdfReader (getvalue f) = Ret (map Ret texts) ->
  concat texts <> [] ->
  script key decode_utf8 loads net PdfReader (Some f) false w
  = (Ret tt, add_ui w (preview (concat texts))).
Proof.
  intros Htype Hpages Hne.
  rewrite script_with_content with (s := concat texts); [reflexivity | | exact Hne].
  rewrite read_pdf_upload by exact Htype.
  apply extract_text_from_pdf_texts. exact Hpages.
Qed.

(** A text file whose bytes do not decode stops the script: the exception
    of the decoder is not caught, and nothing is shown or sent. *)
Theorem undecodable_text_file_raises (f : upload) (e : exn)
  (clicked : bool) (w : world) :
  upload_type f = lit "text/plain" ->
  decode_utf8 (getvalue f) = Raise e ->
  script key decode_utf8 loads net PdfReader (Some f) clicked w
  = (Raise e, w).
Proof.
  intros Htype Hdec. unfold script, read_upload. rewrite Htype.
  change (str_eqb (lit "text/plain") (lit "text/plain")) with true.
  cbv iota. unfold bind, lift. rewrite Hdec. reflexivity.
Qed.


(** A run in which the button is not pressed only shows events: it sends
    no request and leaves the session as it was, whatever was uploaded. *)
Theorem run_without_click_only_shows (uploaded : option upload) (w : world) :
  exists evs,
    snd (script key decode_utf8 loads net PdfReader uploaded false w)
    = add_ui w evs.
Proof.
  assert (H : only_shows
                (script key decode_utf8 loads net PdfReader uploaded false)).
  { unfold script. destruct uploaded as [f|].
    - apply shows_bind; [apply shows_read_upload|]. intros [s|]; shows.
    - shows. }
  apply H.
Qed.


(** A press of the button replaces the stored summary and nothing else:
    once the network has answered, the session holds under its one key
    the value [summarize_document] returned, even when the report then
    raises, and every other entry of the session is as it was. *)
Theorem run_replaces_only_the_summary (t : str) (r : response) (w : world) :
  truthy (VStr t) = true ->
  net (sent w) (summary_request key t) = Ret r ->
  exists v,
    fst (summarize_document key loads net t (cleared w)) = Ret v /\
    dict_lookup
      (session_state (snd (on_summarize key loads net t w)))
      (lit "summary_data") = Some v /\
    forall k,
      k <> lit "summary_data" ->
      dict_lookup (session_state (snd (on_summarize key loads net t w))) k
      = dict_lookup (session_state w) k.
Proof.
  intros Ht Hnet.
  destruct (@reply_is_always_handled key loads net t r (cleared w) Hnet)
    as (v & evs & Hsum).
  exists v. split; [rewrite Hsum; reflexivity|].
  rewrite on_summarize_step with (v := v) (evs := evs) by assumption.
  assert (Hk : only_shows
                 (if truthy v then render_summary v else emit failure_message))
    by (destruct (truthy v); [apply shows_render_summary | apply shows_emit]).
  destruct (Hk (after_run key t w evs v)) as [evs' Hw]. rewrite Hw.
  cbn [add_ui after_run session_state]. split.
  - apply dict_lookup_set.
  - intros k Hne. apply session_after_run_other. exact Hne.
Qed.

(** A text file, the button, and a reply that has everything: the file is
    previewed, its text is what is sent, the decoded result is stored, and
    the whole report is shown. *)
Theorem text_upload_is_summarized_and_reported (f : upload) (s : str)
  (r : response) (result : value) (candidate : str)
  (d : list (str * value)) (cs es os : list value)
  (pd : list (str * value)) (w : world) :
  upload_type f = lit "text/plain" ->
  decode_utf8 (getvalue f) = Ret s ->
  s <> [] ->
  net (sent w) (summary_request key s) = Ret r ->
  status_passes r ->
  loads (text r) = Ret result ->
  spec_candidate_text result = Some (VStr candidate) ->
  loads (unwrap_fence candidate) = Ret (VDict d) ->
  dict_lookup d (lit "coverages") = Some (VList cs) -> cs <> [] ->
  dict_lookup d (lit "exclusions") = Some (VList es) -> es <> [] ->
  dict_lookup d (lit "policyDetails") = Some (VDict pd) ->
  dict_lookup pd (lit "otherDetails") = Some (VList os) -> os <> [] ->
  script key decode_utf8 loads net PdfReader (Some f) true w
  = (Ret tt,
     after_run key s (add_ui w (preview s))
       (full_report (get_or d (lit "summary") NA) cs es pd os) (VDict d)).
Proof.
  intros Htype Hdec Hs Hnet Hst Hres Hpath Hv Hc Hcs He Hes Hp Ho Hos.
  rewrite script_with_content with (s := s);
    [| apply read_text_upload; assumption | exact Hs].
  apply on_summarize_report.
  - destruct s; [congruence | reflexivity].
  - apply summarize_document_decoded
      with (r := r) (result := result) (s := candidate); assumption.
  - apply dict_lookup_truthy with (k := lit "coverages") (v := VList cs).
    exact Hc.
  - intros w'. apply render_summary_full; assumption.
Qed.

End Whole.

(* ================================================================== *)
(** * Further properties of the extractor and of the fence *)
(* ================================================================== *)

Lemma extract_pages_world (pages : list page) (nums : list nat) :
  forall text w, snd (extract_pages pages nums text w) = w.
Proof.
  induction nums as [|n nums IH]; intros text w; cbn [extract_pages].
  - reflexivity.
  - destruct (nth_error pages n) as [[t|e]|]; try reflexivity.
    unfold bind, lift. apply IH.
Qed.

(** [extract_text_from_pdf] never raises: it returns the text and shows
    nothing, or it returns [None] and shows the one error of the reader. *)
Theorem extract_text_from_pdf_returns
  (PdfReader : list byte -> outcome (list page)) (f : upload) (w : world) :
  (exists text, extract_text_from_pdf PdfReader f w = (Ret (Some text), w))
  \/ (exists e,
        extract_text_from_pdf PdfReader f w
        = (Ret None, add_ui w [pdf_read_error e])).
Proof.
  unfold extract_text_from_pdf, catch, bind at 1, lift.
  destruct (PdfReader (getvalue f)) as [pages|e].
  - pose proof (extract_pages_world pages (seq 0 (length pages)) [] w) as Hw.
    unfold bind.
    destruct (extract_pages pages (seq 0 (length pages)) [] w)
      as [[text|e] w'] eqn:E; cbn [snd] in Hw; subst w'.
    + left. exists text. reflexivity.
    + right. exists e. reflexivity.
  - right. exists e. reflexivity.
Qed.

Lemma scan_atom_backtick (rest : str) :
  Json.scan_atom (backtick :: rest) = Json.Malformed.
Proof. reflexivity. Qed.

(** A text that begins with a backtick and is not the exact fence pair is
    handed to the decoder as it is and does not decode: a fence without
    the word json, or a closing fence followed by a line end, is a
    decoding error. *)
Theorem other_fences_do_not_decode (rest : str) :
  startswith (backtick :: rest) fence_open
  && endswith (backtick :: rest) fence_close = false ->
  unwrap_fence (backtick :: rest) = backtick :: rest
  /\ Json.loads (unwrap_fence (backtick :: rest)) = Raise JSONDecodeError.
Proof.
  intros H. unfold unwrap_fence. rewrite H. split; [reflexivity|].
  unfold Json.loads.
  change (startswith (backtick :: rest) [65279%N]) with false. cbv iota.
  change (Json.skip_ws (backtick :: rest)) with (backtick :: rest).
  replace (2 * length (backtick :: rest) + 2)%nat
    with (S (2 * length rest + 3)) by (cbn [length]; lia).
  rewrite scan_once_S.
  change (backtick =? 34)%N with false.
  change (backtick =? 123)%N with false.
  change (backtick =? 91)%N with false.
  cbv iota. rewrite scan_atom_backtick. reflexivity.
Qed.

(* ================================================================== *)
(** * The further properties on concrete inputs *)
(* ================================================================== *)

Lemma exceptions_of_a_reply_example :
  exists v evs,
    summarize_document (lit "k") Json.loads
      (always (reply 200 envelope_without_text)) (lit "policy") fresh
    = (Ret v, after_request (lit "k") (lit "policy") fresh evs).
Proof.
  apply (@exceptions_of_a_reply_are_caught (lit "k") Json.loads
           (always (reply 200 envelope_without_text)) (lit "policy")
           (reply 200 envelope_without_text) fresh).
  reflexivity.
Defined.

Lemma transport_failure_example :
  summarize_document (lit "k") Json.loads
    (down (RequestException (lit "timed out"))) (lit "policy") fresh
  = (Ret VNone,
     after_request (lit "k") (lit "policy") fresh
       [network_or_api_error (RequestException (lit "timed out"))])
  /\ on_summarize (lit "k") Json.loads
       (down (RequestException (lit "timed out"))) (lit "policy") fresh
     = (Ret tt,
        after_run (lit "k") (lit "policy") fresh
          [network_or_api_error (RequestException (lit "timed out"));
           failure_message] VNone).
Proof.
  apply (@transport_failure_is_reported (lit "k") Json.loads
           (down (RequestException (lit "timed out"))) (lit "policy")
           (RequestException (lit "timed out")) fresh);
    reflexivity.
Defined.

Lemma odd_envelope_example :
  summarize_document (lit "k") Json.loads
    (always (reply 200 (lit "[1]"))) (lit "policy") fresh
  = (Ret VNone,
     after_request (lit "k") (lit "policy") fresh
       [unexpected_error AttributeError]).
Proof.
  apply (@odd_envelope_is_an_unexpected_error (lit "k") Json.loads
           (always (reply 200 (lit "[1]"))) (lit "policy")
           (reply 200 (lit "[1]")) (VList [VInt 1]) fresh).
  - reflexivity.
  - left; reflexivity.
  - vm_compute; reflexivity.
  - left. exact I.
Defined.

Lemma truthy_non_object_example :
  on_summarize (lit "k") Json.loads
    (always (reply 200 (envelope_of (lit "[1]")))) (lit "policy") fresh
  = (Raise AttributeError,
     after_run (lit "k") (lit "policy") fresh report_head (VList [VInt 1])).
Proof.
  eapply (@truthy_non_object_result_raises (lit "k") Json.loads
            (always (reply 200 (envelope_of (lit "[1]")))) (lit "policy")
            (reply 200 (envelope_of (lit "[1]")))).
  - reflexivity.
  - reflexivity.
  - left; reflexivity.
  - vm_compute; reflexivity.
  - vm_compute; reflexivity.
  - vm_compute; reflexivity.
  - reflexivity.
  - exact I.
Defined.

Lemma decoded_reply_example :
  summarize_document (lit "k") Json.loads
    (always (reply 302 (envelope_of fenced_summary_escaped)))
    (lit "policy") fresh
  = (Ret summary_ok, after_request (lit "k") (lit "policy") fresh []).
Proof.
  eapply (@decoded_reply_is_returned (lit "k") Json.loads
            (always (reply 302 (envelope_of fenced_summary_escaped)))
            (lit "policy")
            (reply 302 (envelope_of fenced_summary_escaped))).
  - reflexivity.
  - left; reflexivity.
  - vm_compute; reflexivity.
  - vm_compute; reflexivity.
  - vm_compute; reflexivity.
Defined.

Lemma full_result_example :
  render_summary (VDict full_result) fresh
  = (Ret tt,
     add_ui fresh
       (full_report (VStr (lit "Auto policy"))
          [VStr (lit "collision"); VStr (lit "theft")]
          [VStr (lit "racing")] full_policy
          [VStr (lit "rated yearly")])).
Proof.
  apply (@full_result_is_reported_in_order full_result
           [VStr (lit "collision"); VStr (lit "theft")]
           [VStr (lit "racing")] [VStr (lit "rated yearly")]
           full_policy fresh);
    first [reflexivity | discriminate].
Defined.

Lemma unsupported_upload_example :
  script (lit "k") Utf8.decode Json.loads
    (always (reply 200 (envelope_of (lit "{}")))) (reader_of [])
    (Some word_file) true fresh
  = (Ret tt, add_ui fresh [unsupported_type; nothing_to_summarize]).
Proof.
  apply (@unsupported_upload_is_refused (lit "k") Utf8.decode Json.loads
           (always (reply 200 (envelope_of (lit "{}")))) (reader_of [])
           word_file true fresh);
    vm_compute; discriminate.
Defined.

Lemma unreadable_pdf_example :
  script (lit "k") Utf8.decode Json.loads
    (always (reply 200 (envelope_of (lit "{}"))))
    (reader_of [Ret (lit "Auto "); Raise (OtherError (lit "bad stream"))])
    (Some (pdf_file [])) true fresh
  = (Ret tt,
     add_ui fresh
       [pdf_read_error (OtherError (lit "bad stream")); nothing_to_summarize]).
Proof.
  apply (@unreadable_pdf_is_no_content (lit "k") Utf8.decode Json.loads
           (always (reply 200 (envelope_of (lit "{}"))))
           (reader_of [Ret (lit "Auto ");
                       Raise (OtherError (lit "bad stream"))])
           (pdf_file []) (OtherError (lit "bad stream")) true fresh).
  - reflexivity.
  - right. exists [lit "Auto "], []. reflexivity.
Defined.

Lemma pdf_preview_example :
  script (lit "k") Utf8.decode Json.loads
    (always (reply 200 (envelope_of (lit "{}"))))
    (reader_of [Ret (lit "Auto "); Ret (lit "policy")])
    (Some (pdf_file [])) false fresh
  = (Ret tt, add_ui fresh (preview (concat [lit "Auto "; lit "policy"]))).
Proof.
  apply (@pdf_with_text_is_previewed (lit "k") Utf8.decode Json.loads
           (always (reply 200 (envelope_of (lit "{}"))))
           (reader_of [Ret (lit "Auto "); Ret (lit "policy")])
           (pdf_file []) [lit "Auto "; lit "policy"] fresh).
  - reflexivity.
  - reflexivity.
  - vm_compute; discriminate.
Defined.

Lemma undecodable_text_file_example :
  script (lit "k") Utf8.decode Json.loads
    (always (reply 200 (envelope_of (lit "{}")))) (reader_of [])
    (Some (text_file [xff])) true fresh
  = (Raise UnicodeDecodeError, fresh).
Proof.
  apply (@undecodable_text_file_raises (lit "k") Utf8.decode Json.loads
           (always (reply 200 (envelope_of (lit "{}")))) (reader_of [])
           (text_file [xff]) UnicodeDecodeError true fresh);
    reflexivity.
Defined.

Lemma run_replaces_only_the_summary_example :
  exists v,
    fst (summarize_document (lit "k") Json.loads
           (always (reply 200 (envelope_of (lit "[1]")))) (lit "policy")
           (cleared used_world)) = Ret v /\
    dict_lookup
      (session_state
         (snd (on_summarize (lit "k") Json.loads
                 (always (reply 200 (envelope_of (lit "[1]"))))
                 (lit "policy") used_world)))
      (lit "summary_data") = Some v /\
    forall k,
      k <> lit "summary_data" ->
      dict_lookup
        (session_state
           (snd (on_summarize (lit "k") Json.loads
                   (always (reply 200 (envelope_of (lit "[1]"))))
                   (lit "policy") used_world))) k
      = dict_lookup (session_state used_world) k.
Proof.
  apply (@run_replaces_only_the_summary (lit "k") Json.loads
           (always (reply 200 (envelope_of (lit "[1]")))) (lit "policy")
           (reply 200 (envelope_of (lit "[1]"))) used_world);
    reflexivity.
Defined.

Lemma text_upload_example :
  script (lit "k") Utf8.decode Json.loads
    (always (reply 200 (envelope_of full_result_escaped))) (reader_of [])
    (Some (text_file sample_bytes)) true fresh
  = (Ret tt,
     after_run (lit "k") sample_text (add_ui fresh (preview sample_text))
       (full_report (get_or full_result (lit "summary") NA)
          [VStr (lit "collision"); VStr (lit "theft")]
          [VStr (lit "racing")] full_policy
          [VStr (lit "rated yearly")])
       (VDict full_result)).
Proof.
  eapply (@text_upload_is_summarized_and_reported (lit "k") Utf8.decode
            Json.loads
            (always (reply 200 (envelope_of full_result_escaped)))
            (reader_of []) (text_file sample_bytes) sample_text
            (reply 200 (envelope_of full_result_escaped))).
  - reflexivity.
  - reflexivity.
  - discriminate.
  - reflexivity.
  - left; reflexivity.
  - vm_compute; reflexivity.
  - vm_compute; reflexivity.
  - vm_compute; reflexivity.
  - reflexivity.
  - discriminate.
  - reflexivity.
  - discriminate.
  - reflexivity.
  - reflexivity.
  - discriminate.
Defined.

(** A fence without the word json, and the exact fence followed by a line
    end. *)
Lemma other_fences_example :
  (unwrap_fence (lit "```
{}
```") = lit "```
{}
```"
   /\ Json.loads (unwrap_fence (lit "```
{}
```")) = Raise JSONDecodeError)
  /\ (unwrap_fence (lit "```json
{}
```
") = lit "```json
{}
```
"
      /\ Json.loads (unwrap_fence (lit "```json
{}
```
")) = Raise JSONDecodeError).
Proof.
  split.
  - apply (other_fences_do_not_decode (lit "``
{}
```")). reflexivity.
  - apply (other_fences_do_not_decode (lit "``json
{}
```
")). reflexivity.
Defined.
